(** * Magento stock sync: the HTTP client and the reconciliation engine

    A shallow embedding of [magento_client.py] (class [MagentoClient]) and
    [plugin.py] (class [MagentoStockSyncPlugin]), and the properties of
    the specification proved, or refuted, on it.

    Conventions of the embedding.
    - A Python [str] is the [string] of its UTF-8 bytes.
    - A Python [float] is a binary64 number, a primitive [float]: the
      arithmetic and the comparisons of the source are those of the machine,
      rounding, infinities and NaN included. A Python [int] is a [Z], and a
      [Decimal] is the rational ([Q]) it stands for; [float(...)] of either
      rounds to the nearest binary64 number. An argument annotated [float]
      is a [number], an [int] or a [float], as the callers pass both.
    - A JSON document, and more generally a Python value that reaches the
      code through [response.json()] or through [kwargs], is a [value].
    - An f-string is kept as the list of its pieces ([fstring]): literal text
      and interpolated values, so that no number formatting is invented.
    - Effects (requests sent through the session, ORM look-ups, log records)
      are appended to a trace carried by a state-and-exception monad. *)

From Stdlib Require Import PrimFloat SpecFloat.
From Stdlib Require FloatOps FloatAxioms.
From Stdlib Require Import List String Ascii Bool ZArith NArith QArith Qabs Qminmax Lia.
Import ListNotations.
Open Scope string_scope.
Set Warnings "-register-all".
Set Warnings "-inexact-float".

(** ** Python values *)

Inductive value : Type :=
| VNone
| VBool (b : bool)
| VInt (z : Z)
| VFloat (f : float)
| VStr (s : string)
| VList (l : list value)
| VDict (d : list (string * value)).

(** Python's truth value testing, as used by [not x]. *)
Definition truthy (v : value) : bool :=
  match v with
  | VNone => false
  | VBool b => b
  | VInt z => negb (z =? 0)%Z
  | VFloat f => negb (f =? 0)%float
  | VStr s => negb (String.eqb s "")
  | VList l => match l with [] => false | _ => true end
  | VDict d => match d with [] => false | _ => true end
  end.

(** A Python number, what an argument annotated [float] holds: an [int] or
    a [float]. *)
Inductive number : Type :=
| NInt (z : Z)
| NFloat (f : float).

Definition number_value (n : number) : value :=
  match n with
  | NInt z => VInt z
  | NFloat f => VFloat f
  end.

(** [n > 0] *)
Definition gt_zero (n : number) : bool :=
  match n with
  | NInt z => (0 <? z)%Z
  | NFloat f => (0 <? f)%float
  end.

(** [d.get(k)] on the items of a dict; [None] when the key is missing. *)
Fixpoint assoc (k : string) (d : list (string * value)) : option value :=
  match d with
  | [] => None
  | (k', v) :: d' => if String.eqb k k' then Some v else assoc k d'
  end.

(** ** f-strings *)

Inductive piece : Type :=
| Lit (s : string)      (* literal text, or an interpolated [str] *)
| Fmt (v : value).      (* an interpolated value of another type *)

Definition fstring := list piece.
Bind Scope list_scope with fstring.

Definition lit (s : string) : fstring := [Lit s].
Definition fmt (v : value) : fstring := [Fmt v].

(** ** [urllib.parse.quote] *)

Module Quote.

Definition between (lo hi n : N) : bool := (lo <=? n)%N && (n <=? hi)%N.

Definition is_upper (c : ascii) : bool := between 65 90 (N_of_ascii c).
Definition is_lower (c : ascii) : bool := between 97 122 (N_of_ascii c).
Definition is_digit (c : ascii) : bool := between 48 57 (N_of_ascii c).
Definition is_alnum (c : ascii) : bool := is_upper c || is_lower c || is_digit c.

(** [_ALWAYS_SAFE]: the unreserved characters, letters, digits and [_.-~]. *)
Definition always_safe (c : ascii) : bool :=
  is_alnum c
  || Ascii.eqb c "_" || Ascii.eqb c "." || Ascii.eqb c "-" || Ascii.eqb c "~".

Fixpoint mem (c : ascii) (s : string) : bool :=
  match s with
  | EmptyString => false
  | String c' s' => Ascii.eqb c c' || mem c s'
  end.

(** One upper-case hexadecimal digit. *)
Definition hex (n : N) : ascii :=
  if (n <? 10)%N then ascii_of_N (48 + n) else ascii_of_N (55 + n).

(** ['%{:02X}'.format(byte)] *)
Definition percent (c : ascii) : string :=
  let n := N_of_ascii c in
  String "%" (String (hex (n / 16)) (String (hex (n mod 16)) EmptyString)).

Definition quote_byte (safe : string) (c : ascii) : string :=
  if always_safe c || mem c safe then String c EmptyString else percent c.

Fixpoint quote (s : string) (safe : string) : string :=
  match s with
  | EmptyString => EmptyString
  | String c s' => quote_byte safe c ++ quote s' safe
  end.

End Quote.

(** ** Binary64 numbers *)

Module Binary64.

(** The binary64 number nearest to an integer, ties to even; infinite when
    the integer is beyond the range. *)
Definition of_int (z : Z) : float :=
  FloatOps.SF2Prim (binary_normalize FloatOps.prec FloatOps.emax z 0 false).

(** The binary64 number nearest to a rational, ties to even; infinite when
    the rational is beyond the range. This is [float(d)] for a [Decimal]
    [d], and what [json.loads] makes of a literal with a fraction or an
    exponent. *)
Definition of_decimal (q : Q) : float :=
  match Qnum q with
  | Z0 => 0%float
  | Zpos n =>
      FloatOps.SF2Prim
        (SFdiv FloatOps.prec FloatOps.emax (S754_finite false n 0)
               (S754_finite false (Qden q) 0))
  | Zneg n =>
      FloatOps.SF2Prim
        (SFdiv FloatOps.prec FloatOps.emax (S754_finite true n 0)
               (S754_finite false (Qden q) 0))
  end.

(** The rational a finite binary64 number stands for. *)
Definition exact (f : float) : option Q :=
  match FloatOps.Prim2SF f with
  | S754_zero _ => Some 0
  | S754_finite sign m e =>
      let v := match e with
               | Z0 => Zpos m # 1
               | Zpos k => (Zpos m * 2 ^ Zpos k)%Z # 1
               | Zneg k => Zpos m # (2 ^ k)%positive
               end in
      Some (if sign then - v else v)
  | S754_infinity _ | S754_nan => None
  end.

(** A binary64 number above zero: plus infinity, or a finite number whose
    value is positive. *)
Definition positive (f : float) : Prop :=
  f = infinity \/ exists v, exact f = Some v /\ 0 < v.

End Binary64.

(** A number above zero. *)
Definition above_zero (n : number) : Prop :=
  match n with
  | NInt z => (0 < z)%Z
  | NFloat f => Binary64.positive f
  end.

(** ** [math.isclose] *)

(** The algorithm of CPython's [math.isclose], on binary64 numbers. *)
Definition isclose (a b rel_tol abs_tol : float) : bool :=
  if (a =? b)%float then true
  else if is_infinity a || is_infinity b then false
  else
    let diff := abs (b - a)%float in
    (diff <=? abs (rel_tol * b))%float
    || (diff <=? abs (rel_tol * a))%float
    || (diff <=? abs_tol)%float.

Definition absoluteTolerance : Q := 1 # 1000.
Definition relativeTolerance : Q := 1 # 1000000000.

(** The tolerant equality in the words of the specification, on exact
    numbers:
    [|local - remote| <= max(absoluteTolerance,
                             relativeTolerance * max(|local|, |remote|))]. *)
Definition spec_equal (local remote : Q) : Prop :=
  Qabs (local - remote)
  <= Qmax absoluteTolerance (relativeTolerance * Qmax (Qabs local) (Qabs remote)).

(** The same test, as a boolean. *)
Definition spec_equalb (local remote : Q) : bool :=
  Qle_bool (Qabs (local - remote))
           (Qmax absoluteTolerance (relativeTolerance * Qmax (Qabs local) (Qabs remote))).

(** ** Effects: the trace, exceptions, and the monad that threads them *)

Inductive method : Type := GET | PUT.

Record request : Type := {
  req_method : method;
  req_url : fstring;
  req_json : option value      (* the [json=] argument of the call *)
}.

(** What [response.json()] finds in the body. *)
Inductive payload : Type :=
| Json (v : value)
| NotJson (err : string).      (* the decoder's message *)

Record response : Type := {
  status_code : Z;
  reason : string;
  body : payload
}.

(** What one call of [session.get] or [session.put] ends with, the mounted
    retry adapter included: the final response, [requests.exceptions.Timeout],
    or another [RequestException] (connection failure, [RetryError] once the
    retries on 429/500/502/503/504 are used up, ...) whose text is [e]. *)
Inductive outcome : Type :=
| Responded (r : response)
| TimedOut
| Failed (e : string).

Inductive level : Type := DEBUG | INFO | WARNING | ERROR.

Inductive event : Type :=
| Sent (r : request)                      (* a request through the session *)
| Queried (model : string) (pk : value)   (* [Model.objects.get(pk=...)] *)
| Logged (lvl : level) (msg : fstring).   (* a record of the logger *)

Inductive exn : Type :=
| Timeout                              (* [requests.exceptions.Timeout] *)
| RequestException (e : fstring)       (* a [RequestException] that is no [Timeout] *)
| MagentoClientError (msg : fstring)
| AttributeError
| TypeError
| ValueError
| OverflowError.

Inductive result (A : Type) : Type :=
| Ok (a : A)
| Raise (e : exn).
Arguments Ok {A} a.
Arguments Raise {A} e.

Record MagentoClient : Type := {
  obj_id : nat;          (* the identity of the instance *)
  base_url : string;
  token : string
}.

(** The trace, and the attributes of the plugin instance ([self]). *)
Record world : Type := {
  trace : list event;
  _client : option MagentoClient;
  _cached_url : string;
  _cached_token : string;
  next_obj_id : nat
}.

Definition M (A : Type) : Type := world -> result A * world.

Definition ret {A} (a : A) : M A := fun w => (Ok a, w).

Definition bind {A B} (m : M A) (f : A -> M B) : M B :=
  fun w => match m w with
           | (Ok a, w') => f a w'
           | (Raise e, w') => (Raise e, w')
           end.

Definition raise {A} (e : exn) : M A := fun w => (Raise e, w).

(** [try: m  except ...: h]. The handler answers [None] for an exception
    that no [except] clause matches, which then propagates. *)
Definition try_except {A} (m : M A) (h : exn -> option (M A)) : M A :=
  fun w => match m w with
           | (Ok a, w') => (Ok a, w')
           | (Raise e, w') =>
               match h e with
               | Some k => k w'
               | None => (Raise e, w')
               end
           end.

Declare Scope monad_scope.
Delimit Scope monad_scope with monad.
Notation "x <- c1 ;; c2" := (bind c1 (fun x => c2))
  (at level 61, c1 at next level, right associativity) : monad_scope.
Notation "c1 ;; c2" := (bind c1 (fun _ => c2))
  (at level 61, right associativity) : monad_scope.
Open Scope monad_scope.

(** The world after one more event. *)
Definition record (ev : event) (w : world) : world :=
  {| trace := trace w ++ [ev];
     _client := _client w;
     _cached_url := _cached_url w;
     _cached_token := _cached_token w;
     next_obj_id := next_obj_id w |}.

Definition emit (ev : event) : M unit := fun w => (Ok tt, record ev w).

Definition logger (lvl : level) (msg : fstring) : M unit := emit (Logged lvl msg).

(** A part of the host's database, as far as the plugin reads it. *)
Record Part : Type := {
  pk : Z;
  name : string;
  total_stock : Q       (* a [Decimal]: the quantity summed over all stock locations *)
}.

(** The surroundings of the code: the remote server behind the session, the
    host's database, and Python's parser of numbers in [float(str)]. *)
Class Host : Type := {
  (** the outcome of a request, given everything that happened before it *)
  transport : list event -> request -> outcome;
  (** [float(s)] for a string; [None] stands for [ValueError] *)
  float_of_str : string -> option float;
  (** [from stock.models import StockItem] succeeds *)
  stock_models : bool;
  (** [from part.models import Part] succeeds *)
  part_models : bool;
  (** [StockItem.objects.select_related("part").get(pk=...)]: the item's
      part, [None] standing for [StockItem.DoesNotExist] *)
  StockItem_get : value -> option (option Part);
  (** [Part.objects.get(pk=...)], [None] standing for [Part.DoesNotExist] *)
  Part_get : value -> option Part
}.

(** ** [magento_client.py] *)

Section Client.
Context {host : Host}.

(** [session.get] and [session.put]: the request is recorded, and the
    outcome is the server's. *)
Definition session_request (r : request) : M response :=
  fun w =>
    let w' := record (Sent r) w in
    match transport (trace w) r with
    | Responded resp => (Ok resp, w')
    | TimedOut => (Raise Timeout, w')
    | Failed e => (Raise (RequestException (lit e)), w')
    end.

Definition session_get (url : fstring) : M response :=
  session_request {| req_method := GET; req_url := url; req_json := None |}.

Definition session_put (url : fstring) (json : value) : M response :=
  session_request {| req_method := PUT; req_url := url; req_json := Some json |}.

(** [Response.raise_for_status]: an [HTTPError] for a status from 400 to
    599, nothing for any other status. *)
Definition http_error_msg (url : fstring) (r : response) : fstring :=
  let code := status_code r in
  if (400 <=? code)%Z && (code <? 500)%Z then
    fmt (VInt code) ++ lit " Client Error: " ++ lit (reason r)
    ++ lit " for url: " ++ url
  else if (500 <=? code)%Z && (code <? 600)%Z then
    fmt (VInt code) ++ lit " Server Error: " ++ lit (reason r)
    ++ lit " for url: " ++ url
  else [].

Definition raise_for_status (url : fstring) (r : response) : M unit :=
  match http_error_msg url r with
  | [] => ret tt
  | msg => raise (RequestException msg)
  end.

(** [Response.json]: [requests.exceptions.JSONDecodeError], which is a
    [RequestException], when the body is not valid JSON. *)
Definition response_json (r : response) : M value :=
  match body r with
  | Json v => ret v
  | NotJson err => raise (RequestException (lit err))
  end.

(** [x.get(k, default)] on a value that came out of JSON: only a dict has
    the method. *)
Definition py_get (x : value) (k : string) (default : value) : M value :=
  match x with
  | VDict d => ret (match assoc k d with Some v => v | None => default end)
  | _ => raise AttributeError
  end.

(** [float(x)]: an int is rounded to the nearest binary64 number, and one
    beyond the range raises [OverflowError]; a float is returned as it is. *)
Definition py_float (x : value) : M float :=
  match x with
  | VInt z =>
      let f := Binary64.of_int z in
      if is_infinity f then raise OverflowError else ret f
  | VFloat f => ret f
  | VBool b => ret (if b then 1%float else 0%float)
  | VStr s => match float_of_str s with
              | Some f => ret f
              | None => raise ValueError
              end
  | VNone | VList _ | VDict _ => raise TypeError
  end.

(** [str.rstrip("/")] *)
Fixpoint rstrip_slash (s : string) : string :=
  match s with
  | EmptyString => EmptyString
  | String c s' =>
      match rstrip_slash s' with
      | EmptyString => if Ascii.eqb c "/" then EmptyString else String c EmptyString
      | r => String c r
      end
  end.

(** [MagentoClient.__init__]: a new instance. *)
Definition MagentoClient_init (url tok : string) : M MagentoClient :=
  fun w =>
    (Ok {| obj_id := next_obj_id w; base_url := rstrip_slash url; token := tok |},
     {| trace := trace w;
        _client := _client w;
        _cached_url := _cached_url w;
        _cached_token := _cached_token w;
        next_obj_id := S (next_obj_id w) |}).

Definition _url (self : MagentoClient) (path : fstring) : fstring :=
  lit (base_url self) ++ lit "/rest/V1" ++ path.

Definition _encode_sku (sku : string) : string := Quote.quote sku "".

Definition get_stock_item (self : MagentoClient) (sku : string) : M value :=
  let encoded_sku := _encode_sku sku in
  let url := _url self (lit "/stockItems/" ++ lit encoded_sku) in
  try_except
    (response <- session_get url ;;
     if (status_code response =? 404)%Z then
       logger DEBUG (lit "SKU '" ++ lit sku ++ lit "' not found in Magento") ;;
       ret VNone
     else
       raise_for_status url response ;;
       response_json response)
    (fun e =>
       match e with
       | Timeout =>
           Some (logger ERROR (lit "Timeout getting stock for SKU '" ++ lit sku ++ lit "'") ;;
                 raise (MagentoClientError
                          (lit "Timeout getting stock for SKU '" ++ lit sku ++ lit "'")))
       | RequestException e =>
           Some (logger ERROR
                   (lit "Error getting stock for SKU '" ++ lit sku ++ lit "': " ++ e) ;;
                 raise (MagentoClientError
                          (lit "API error for SKU '" ++ lit sku ++ lit "': " ++ e)))
       | _ => None
       end).

Definition get_stock_qty (self : MagentoClient) (sku : string) : M (option float) :=
  stock_item <- get_stock_item self sku ;;
  match stock_item with
  | VNone => ret None
  | _ =>
      qty <- py_get stock_item "qty" (VInt 0) ;;
      q <- py_float qty ;;
      ret (Some q)
  end.

Definition update_stock_qty (self : MagentoClient) (sku : string) (qty : number)
           (is_in_stock : option bool) : M bool :=
  (* First get the stock item to get item_id *)
  stock_item <- get_stock_item self sku ;;
  match stock_item with
  | VNone =>
      logger WARNING (lit "Cannot update stock: SKU '" ++ lit sku
                      ++ lit "' not found in Magento") ;;
      ret false
  | _ =>
      item_id <- py_get stock_item "item_id" VNone ;;
      if negb (truthy item_id) then
        logger ERROR (lit "No item_id found for SKU '" ++ lit sku ++ lit "'") ;;
        ret false
      else
        (* Determine is_in_stock *)
        let is_in_stock :=
          match is_in_stock with
          | None => gt_zero qty                 (* qty > 0 *)
          | Some b => b
          end in
        let encoded_sku := _encode_sku sku in
        let url := _url self (lit "/products/" ++ lit encoded_sku
                              ++ lit "/stockItems/" ++ fmt item_id) in
        let payload :=
          VDict [("stockItem",
                  VDict [("qty", number_value qty); ("is_in_stock", VBool is_in_stock)])] in
        try_except
          (response <- session_put url payload ;;
           raise_for_status url response ;;
           logger INFO (lit "Updated Magento stock for '" ++ lit sku ++ lit "': qty="
                        ++ fmt (number_value qty) ++ lit ", in_stock="
                        ++ fmt (VBool is_in_stock)) ;;
           ret true)
          (fun e =>
             match e with
             | Timeout =>
                 Some (logger ERROR
                         (lit "Timeout updating stock for SKU '" ++ lit sku ++ lit "'") ;;
                       raise (MagentoClientError
                                (lit "Timeout updating stock for SKU '" ++ lit sku
                                 ++ lit "'")))
             | RequestException e =>
                 Some (logger ERROR
                         (lit "Error updating stock for SKU '" ++ lit sku ++ lit "': "
                          ++ e) ;;
                       raise (MagentoClientError
                                (lit "API error updating SKU '" ++ lit sku ++ lit "': "
                                 ++ e)))
             | _ => None
             end)
  end.

End Client.

(** ** [plugin.py] *)

(** Events we care about for stock synchronization. *)
Definition STOCK_EVENTS : list string :=
  [ "stock_stockitem.created";
    "stock_stockitem.saved";
    "stock_stockitem.deleted";
    "stockitem.quantityupdated";
    "stockitem.assignedtocustomer";
    "stockitem.returnedfromcustomer";
    "stockitem.split";
    "stockitem.moved";
    "stockitem.counted" ].

(** What [get_setting] answers during one invocation. *)
Record settings : Type := {
  MAGENTO_URL : string;
  MAGENTO_TOKEN : string;
  SYNC_ENABLED : bool;
  LOG_ONLY : bool
}.

Section Plugin.
Context {host : Host}.

Definition get_self : M world := fun w => (Ok w, w).

(** [self._client = client; self._cached_url = url; self._cached_token = token] *)
Definition set_client (client : MagentoClient) (url tok : string) : M unit :=
  fun w => (Ok tt, {| trace := trace w;
                      _client := Some client;
                      _cached_url := url;
                      _cached_token := tok;
                      next_obj_id := next_obj_id w |}).

Definition is_None {A} (o : option A) : bool :=
  match o with None => true | Some _ => false end.

(** The property [magento]. *)
Definition magento (cfg : settings) : M (option MagentoClient) :=
  let url := MAGENTO_URL cfg in
  let tok := MAGENTO_TOKEN cfg in
  if negb (truthy (VStr url)) || negb (truthy (VStr tok)) then
    logger WARNING (lit "Magento URL or token not configured") ;;
    ret None
  else
    self <- get_self ;;
    (* Recreate client if settings changed *)
    (if is_None (_client self)
        || negb (String.eqb (_cached_url self) url)
        || negb (String.eqb (_cached_token self) tok)
     then
       client <- MagentoClient_init url tok ;;
       set_client client url tok
     else ret tt) ;;
    self <- get_self ;;
    ret (_client self).

Definition wants_process_event (event : string) : bool :=
  existsb (String.eqb event) STOCK_EVENTS.

Definition _sync_part (cfg : settings) (part : Part) (client : MagentoClient)
           (event : string) : M unit :=
  (* SKU is the part name *)
  let sku := name part in
  if negb (truthy (VStr sku)) then
    logger DEBUG (lit "Part " ++ fmt (VInt (pk part))
                  ++ lit " has no name, skipping sync")
  else
    (* Get total stock across all locations *)
    let total_qty := Binary64.of_decimal (total_stock part) in
    let log_only := LOG_ONLY cfg in
    try_except
      (m2_qty <- get_stock_qty client sku ;;
       match m2_qty with
       | None =>
           logger WARNING (lit "[" ++ lit event ++ lit "] SKU '" ++ lit sku
                           ++ lit "' not found in Magento, skipping sync")
       | Some m2_qty =>
           (* Compare quantities (use tolerance for float comparison) *)
           if isclose total_qty m2_qty 1e-9 0.001 then
             logger DEBUG (lit "[" ++ lit event ++ lit "] SKU '" ++ lit sku
                           ++ lit "' already in sync (qty=" ++ fmt (VFloat total_qty)
                           ++ lit ")")
           else if log_only then
             logger INFO (lit "[LOG_ONLY] [" ++ lit event ++ lit "] Would sync SKU '"
                          ++ lit sku ++ lit "': " ++ lit "Magento "
                          ++ fmt (VFloat m2_qty) ++ lit " -> InvenTree "
                          ++ fmt (VFloat total_qty))
           else
             success <- update_stock_qty client sku (NFloat total_qty) None ;;
             if success then
               logger INFO (lit "[" ++ lit event ++ lit "] Synced SKU '" ++ lit sku
                            ++ lit "': Magento " ++ fmt (VFloat m2_qty) ++ lit " -> "
                            ++ fmt (VFloat total_qty))
             else
               logger ERROR (lit "[" ++ lit event ++ lit "] Failed to sync SKU '"
                             ++ lit sku ++ lit "'")
       end)
      (fun e =>
         match e with
         | MagentoClientError e =>
             Some (logger ERROR (lit "[" ++ lit event ++ lit "] Magento API error for SKU '"
                                 ++ lit sku ++ lit "': " ++ e))
         | _ => None
         end).

Definition _sync_stock_item (cfg : settings) (stock_item_id : value)
           (client : MagentoClient) (event : string) : M unit :=
  if negb stock_models then
    logger ERROR (lit "Could not import StockItem model")
  else
    emit (Queried "StockItem" stock_item_id) ;;
    match StockItem_get stock_item_id with
    | None =>
        logger DEBUG (lit "StockItem " ++ fmt stock_item_id
                      ++ lit " not found (may have been deleted)")
    | Some None =>
        logger DEBUG (lit "StockItem " ++ fmt stock_item_id
                      ++ lit " has no associated part")
    | Some (Some part) => _sync_part cfg part client event
    end.

Definition _sync_part_by_id (cfg : settings) (part_id : value)
           (client : MagentoClient) (event : string) : M unit :=
  if negb part_models then
    logger ERROR (lit "Could not import Part model")
  else
    emit (Queried "Part" part_id) ;;
    match Part_get part_id with
    | None => logger DEBUG (lit "Part " ++ fmt part_id ++ lit " not found")
    | Some part => _sync_part cfg part client event
    end.

(** [kwargs.get(k)] *)
Definition kwargs_get (kwargs : list (string * value)) (k : string) : value :=
  match assoc k kwargs with
  | Some v => v
  | None => VNone
  end.

Definition process_event (cfg : settings) (event : string)
           (kwargs : list (string * value)) : M unit :=
  (* Check if sync is enabled *)
  if negb (SYNC_ENABLED cfg) then ret tt
  else
    (* Get client (returns None if not configured) *)
    client <- magento cfg ;;
    match client with
    | None => ret tt
    | Some client =>
        (* Get stock item ID from event *)
        let stock_item_id := kwargs_get kwargs "id" in
        if negb (truthy stock_item_id) then
          logger DEBUG (lit "Event " ++ lit event ++ lit " has no 'id' in kwargs")
        else if String.eqb event "stock_stockitem.deleted" then
          let part_id := kwargs_get kwargs "part_id" in
          if negb (truthy part_id) then
            logger DEBUG (lit "Deleted stock item " ++ fmt stock_item_id
                          ++ lit " - no part_id in kwargs, skipping")
          else _sync_part_by_id cfg part_id client event
        else _sync_stock_item cfg stock_item_id client event
    end.

End Plugin.

(** ** Vocabulary of the statements *)

(** The one request [get_stock_item] sends for a SKU. *)
Definition stock_item_request (self : MagentoClient) (sku : string) : request :=
  {| req_method := GET;
     req_url := _url self (lit "/stockItems/" ++ lit (_encode_sku sku));
     req_json := None |}.

(** The statuses [raise_for_status] turns into an exception. *)
Definition error_status (code : Z) : Prop := (400 <= code < 600)%Z.

Definition success_status (code : Z) : Prop := (200 <= code < 300)%Z.

(** The text [s] is interpolated in the message. *)
Definition mentions (s : string) (msg : fstring) : Prop := In (Lit s) msg.

(** The write requests of a trace. *)
Fixpoint writes (t : list event) : list request :=
  match t with
  | [] => []
  | Sent r :: t' =>
      match req_method r with
      | PUT => r :: writes t'
      | GET => writes t'
      end
  | _ :: t' => writes t'
  end.

(** All the requests of a trace. *)
Fixpoint requests (t : list event) : list request :=
  match t with
  | [] => []
  | Sent r :: t' => r :: requests t'
  | _ :: t' => requests t'
  end.

(** The ORM look-ups of a trace. *)
Fixpoint queries (t : list event) : list (string * value) :=
  match t with
  | [] => []
  | Queried m k :: t' => (m, k) :: queries t'
  | _ :: t' => queries t'
  end.

(** What the [except] clauses of [get_stock_item] do with a
    [RequestException] whose text is [e]. *)
Definition fetch_failed (sku : string) (e : fstring) (w : world) : result value * world :=
  (Raise (MagentoClientError (lit "API error for SKU '" ++ lit sku ++ lit "': " ++ e)),
   record (Logged ERROR (lit "Error getting stock for SKU '" ++ lit sku ++ lit "': " ++ e)) w).

(** What the body of the write looks like. *)
Definition stock_item_body (qty : number) (is_in_stock : bool) : value :=
  VDict [("stockItem",
         VDict [("qty", number_value qty); ("is_in_stock", VBool is_in_stock)])].

(** The in-stock flag [update_stock_qty] sends: the override, else [qty > 0]. *)
Definition in_stock_flag (qty : number) (is_in_stock : option bool) : bool :=
  match is_in_stock with
  | None => gt_zero qty
  | Some b => b
  end.

(** The write [update_stock_qty] sends for a record whose identifier is
    [item_id]. *)
Definition stock_item_write (self : MagentoClient) (sku : string) (item_id : value)
           (qty : number) (is_in_stock : option bool) : request :=
  {| req_method := PUT;
     req_url := _url self (lit "/products/" ++ lit (_encode_sku sku)
                           ++ lit "/stockItems/" ++ fmt item_id);
     req_json := Some (stock_item_body qty (in_stock_flag qty is_in_stock)) |}.

(** What the [except] clauses of [update_stock_qty] do with a
    [RequestException] whose text is [e]. *)
Definition update_failed (sku : string) (e : fstring) (w : world) : result bool * world :=
  (Raise (MagentoClientError (lit "API error updating SKU '" ++ lit sku ++ lit "': " ++ e)),
   record (Logged ERROR (lit "Error updating stock for SKU '" ++ lit sku ++ lit "': " ++ e))
          w).

(** [stock_item.get("item_id")] on a record. *)
Definition item_id_of (d : list (string * value)) : value :=
  match assoc "item_id" d with
  | Some v => v
  | None => VNone
  end.

(** The records [_sync_part] logs. *)
Definition log_not_found (kind sku : string) : event :=
  Logged WARNING (lit "[" ++ lit kind ++ lit "] SKU '" ++ lit sku
                  ++ lit "' not found in Magento, skipping sync").

Definition log_in_sync (kind sku : string) (total_qty : float) : event :=
  Logged DEBUG (lit "[" ++ lit kind ++ lit "] SKU '" ++ lit sku
                ++ lit "' already in sync (qty=" ++ fmt (VFloat total_qty) ++ lit ")").

Definition log_would_sync (kind sku : string) (m2_qty total_qty : float) : event :=
  Logged INFO (lit "[LOG_ONLY] [" ++ lit kind ++ lit "] Would sync SKU '" ++ lit sku
               ++ lit "': " ++ lit "Magento " ++ fmt (VFloat m2_qty)
               ++ lit " -> InvenTree " ++ fmt (VFloat total_qty)).

Definition log_synced (kind sku : string) (m2_qty total_qty : float) : event :=
  Logged INFO (lit "[" ++ lit kind ++ lit "] Synced SKU '" ++ lit sku
               ++ lit "': Magento " ++ fmt (VFloat m2_qty) ++ lit " -> "
               ++ fmt (VFloat total_qty)).

Definition log_sync_failed (kind sku : string) : event :=
  Logged ERROR (lit "[" ++ lit kind ++ lit "] Failed to sync SKU '" ++ lit sku ++ lit "'").

Definition log_api_error (kind sku : string) (e : fstring) : event :=
  Logged ERROR (lit "[" ++ lit kind ++ lit "] Magento API error for SKU '" ++ lit sku
                ++ lit "': " ++ e).

(** The cached settings are those the held client was built with, and the
    identity of the held client has been handed out. *)
Definition consistent (w : world) : Prop :=
  match _client w with
  | None => True
  | Some c =>
      base_url c = rstrip_slash (_cached_url w)
      /\ token c = _cached_token w
      /\ (obj_id c < next_obj_id w)%nat
  end.

(** The instance [MagentoClient(base_url=url, token=tok)] built in [w]. *)
Definition built (url tok : string) (w : world) : MagentoClient :=
  {| obj_id := next_obj_id w; base_url := rstrip_slash url; token := tok |}.

(** ** Concrete scenarios *)

(** The plugin instance right after its creation. *)
Definition fresh : world :=
  {| trace := []; _client := None; _cached_url := ""; _cached_token := "";
     next_obj_id := 0 |}.

Definition shop : MagentoClient :=
  {| obj_id := 0; base_url := "https://shop.example.com"; token := "test_token_123" |}.

(** A host whose server is [t], with an empty database. *)
Definition served_by (t : list event -> request -> outcome) : Host :=
  {| transport := t;
     float_of_str := fun _ => None;
     stock_models := true;
     part_models := true;
     StockItem_get := fun _ => None;
     Part_get := fun _ => None |}.

(** A server that answers every request with the same response. *)
Definition always (r : response) : list event -> request -> outcome :=
  fun _ _ => Responded r.

(** A server that holds one stock record: [GET] answers 200 with the record,
    [PUT] answers with the status [put_status]. *)
Definition one_record (record : value) (put_status : Z)
  : list event -> request -> outcome :=
  fun _ r =>
    match req_method r with
    | GET => Responded {| status_code := 200; reason := "OK"; body := Json record |}
    | PUT => Responded {| status_code := put_status; reason := "";
                          body := Json (VInt 456) |}
    end.

Definition record_456 : value :=
  VDict [("item_id", VInt 456); ("qty", VInt 10); ("is_in_stock", VBool true)].

Definition server_error : response :=
  {| status_code := 500; reason := "Internal Server Error";
     body := Json (VDict [("message", VStr "Internal error")]) |}.

Definition multiple_choices : response :=
  {| status_code := 300; reason := "Multiple Choices";
     body := Json (VDict [("item_id", VInt 123); ("qty", VInt 50)]) |}.

Definition no_content : response :=
  {| status_code := 204; reason := "No Content";
     body := NotJson "Expecting value: line 1 column 1 (char 0)" |}.

Definition not_modified : response :=
  {| status_code := 304; reason := "Not Modified";
     body := NotJson "Expecting value: line 1 column 1 (char 0)" |}.

Definition not_found : response :=
  {| status_code := 404; reason := "Not Found";
     body := Json (VDict [("message", VStr "Product not found")]) |}.

(** A record without quantity and without identifier. *)
Definition bare_record : response :=
  {| status_code := 200; reason := "OK";
     body := Json (VDict [("is_in_stock", VBool true)]) |}.

(** The part of the scenarios, with a given total quantity. *)
Definition widget (total : Q) : Part :=
  {| pk := 1; name := "WIDGET-1"; total_stock := total |}.

(** The remote record of the part: 50 in stock. *)
Definition remote_50 : value :=
  VDict [("item_id", VInt 9); ("qty", VInt 50); ("is_in_stock", VBool true)].

Definition live : settings :=
  {| MAGENTO_URL := "https://shop.example.com"; MAGENTO_TOKEN := "test_token_123";
     SYNC_ENABLED := true; LOG_ONLY := false |}.

Definition dry_run : settings :=
  {| MAGENTO_URL := "https://shop.example.com"; MAGENTO_TOKEN := "test_token_123";
     SYNC_ENABLED := true; LOG_ONLY := true |}.

(** ** The liveness probe, and the vocabulary of the further properties *)

Section Liveness.
Context {host : Host}.

(** The text of a [requests.exceptions.Timeout], which the log record of the
    probe interpolates. *)
Variable timeout_text : fstring.

Definition test_connection (self : MagentoClient) : M bool :=
  let url := _url self (lit "/store/storeConfigs") in
  try_except
    (response <- session_get url ;;
     raise_for_status url response ;;
     logger INFO (lit "Magento API connection test successful") ;;
     ret true)
    (fun e =>
       match e with
       | Timeout =>
           Some (logger ERROR (lit "Magento API connection test failed: " ++ timeout_text) ;;
                 ret false)
       | RequestException e =>
           Some (logger ERROR (lit "Magento API connection test failed: " ++ e) ;;
                 ret false)
       | _ => None
       end).

End Liveness.

(** The request of the probe. *)
Definition store_configs_request (self : MagentoClient) : request :=
  {| req_method := GET;
     req_url := _url self (lit "/store/storeConfigs");
     req_json := None |}.

(** The value of an upper-case hexadecimal digit. *)
Definition unhex (c : ascii) : N :=
  if Quote.is_digit c then (N_of_ascii c - 48)%N else (N_of_ascii c - 55)%N.

(** What a server does to a path segment: every [%XY] becomes the byte it
    stands for. *)
Fixpoint decode_segment (s : string) : string :=
  match s with
  | EmptyString => EmptyString
  | String c r =>
      if Ascii.eqb c "%" then
        match r with
        | String h (String l r') =>
            String (ascii_of_N (16 * unhex h + unhex l)) (decode_segment r')
        | _ => String c (decode_segment r)
        end
      else String c (decode_segment r)
  end.

(** The characters of a [str], counted on its UTF-8 bytes: every byte
    starts a character, the continuation bytes [10xxxxxx] apart. *)
Definition starts_char (c : ascii) : bool :=
  negb (Quote.between 128 191 (N_of_ascii c)).

(** [len(s)] *)
Fixpoint py_len (s : string) : nat :=
  match s with
  | EmptyString => 0
  | String c s' => (if starts_char c then 1 else 0) + py_len s'
  end.

(** [s.isascii()] *)
Fixpoint isascii (s : string) : bool :=
  match s with
  | EmptyString => true
  | String c s' => (N_of_ascii c <? 128)%N && isascii s'
  end.

(** The letter e with an acute accent, U+00E9: the bytes C3 A9. *)
Definition e_acute : string :=
  String (ascii_of_N 195) (String (ascii_of_N 169) EmptyString).

(** [n] slashes. *)
Fixpoint slashes (n : nat) : string :=
  match n with
  | O => EmptyString
  | S n' => String "/" (slashes n')
  end.

(** The plugin instance after [magento] has been read under each of the
    settings of a list, one after the other. *)
Fixpoint after_uses (cfgs : list settings) (w : world) : world :=
  match cfgs with
  | [] => w
  | cfg :: cfgs' => after_uses cfgs' (snd (magento cfg w))
  end.

(** The request goes to the REST root of the store at [url]. *)
Definition targets (url : string) (r : request) : Prop :=
  exists path, req_url r = (lit (rstrip_slash url) ++ lit "/rest/V1" ++ path)%list.

Definition is_log (ev : event) : Prop := exists lvl msg, ev = Logged lvl msg.

Definition is_put (r : request) : bool :=
  match req_method r with
  | PUT => true
  | GET => false
  end.

(** A server that holds [record] until it has been read once: the first
    request is answered with the record, every later one with 404. *)
Definition vanishing (record : value) : list event -> request -> outcome :=
  fun t _ =>
    match requests t with
    | [] => Responded {| status_code := 200; reason := "OK"; body := Json record |}
    | _ => Responded not_found
    end.

(** The remote record of the part: 40 in stock. *)
Definition remote_40 : value :=
  VDict [("item_id", VInt 9); ("qty", VInt 40); ("is_in_stock", VBool true)].

(** The requests one reconciliation attempt through [client] can send: none,
    the fetch of a SKU, that fetch twice, or that fetch twice and one write
    for the same SKU. *)
Definition attempt_requests (client : MagentoClient) (rs : list request) : Prop :=
  rs = []
  \/ exists sku,
      rs = [stock_item_request client sku]
      \/ rs = [stock_item_request client sku; stock_item_request client sku]
      \/ exists item_id qty,
          rs = [stock_item_request client sku; stock_item_request client sku;
                stock_item_write client sku item_id qty None].

(** The trace of [final] is the trace of [w], then more events, a log record
    last. *)
Definition ends_with_log (w final : world) : Prop :=
  exists t lvl msg, trace final = (trace w ++ t ++ [Logged lvl msg])%list.

(** The trace of [final] extends the trace of [w]. *)
Definition extends (w final : world) : Prop :=
  exists t, trace final = (trace w ++ t)%list.

(** The remote record of the part, with a given quantity. *)
Definition remote_record (qty : value) : value :=
  VDict [("item_id", VInt 9); ("qty", qty); ("is_in_stock", VBool true)].

(** * Properties *)

(** ** The encoding of a SKU *)

Section Encoding.
Import Quote.

Lemma mem_app c a b : mem c (a ++ b) = mem c a || mem c b.
Proof.
  induction a as [|x a IH]; simpl; [reflexivity|].
  now rewrite IH, orb_assoc.
Qed.

Lemma quote_app a b safe : quote (a ++ b) safe = quote a safe ++ quote b safe.
Proof.
  induction a as [|x a IH]; simpl; [reflexivity|].
  rewrite IH. generalize (quote_byte safe x) as q.
  induction q as [|y q IHq]; simpl; [reflexivity | now rewrite IHq].
Qed.

(** The three characters of an escape are [%] and two hexadecimal digits,
    which are unreserved themselves. *)
Lemma percent_chars c x :
  mem x (percent c) = true -> x = "%"%char \/ always_safe x = true.
Proof.
  unfold percent. cbn [mem]. rewrite !orb_true_iff, !Ascii.eqb_eq.
  intros [H | [H | [H | H]]]; [now left | right | right | discriminate H];
    subst x; destruct c as [[] [] [] [] [] [] [] []]; reflexivity.
Qed.

Lemma quote_byte_chars c x :
  mem x (quote_byte "" c) = true -> x = "%"%char \/ always_safe x = true.
Proof.
  unfold quote_byte. cbn [mem]. rewrite orb_false_r.
  destruct (always_safe c) eqn:E.
  - cbn [mem]. rewrite orb_false_r, Ascii.eqb_eq. intros ->. now right.
  - apply percent_chars.
Qed.

Lemma quote_chars s x :
  mem x (quote s "") = true -> x = "%"%char \/ always_safe x = true.
Proof.
  induction s as [|c s IH]; cbn [quote mem]; [discriminate|].
  rewrite mem_app, orb_true_iff.
  intros [H | H]; [now apply (quote_byte_chars c) | now apply IH].
Qed.

Lemma quote_safe_id s :
  (forall c, mem c s = true -> always_safe c = true) -> quote s "" = s.
Proof.
  induction s as [|c s IH]; intros H; cbn [quote]; [reflexivity|].
  unfold quote_byte. rewrite (H c) by (cbn [mem]; now rewrite Ascii.eqb_refl).
  cbn. rewrite IH; [reflexivity|].
  intros x Hx. apply H. cbn [mem]. now rewrite Hx, orb_true_r.
Qed.

End Encoding.

(** C8. [_encode_sku] percent-encodes a SKU as one path segment and treats no
    character as path-safe: the two SKUs of the tests encode as stated; the
    encoding works byte by byte, and a byte is kept exactly when it is
    unreserved (a letter, a digit or one of [_.-~]), so that the result
    holds nothing but unreserved characters and [%]: no slash and no space;
    a slash becomes [%2F] and a space [%20]; and a SKU made of letters,
    digits and hyphens only is returned unchanged. *)
Theorem encode_sku_single_segment :
  _encode_sku "sku/with/slashes" = "sku%2Fwith%2Fslashes"
  /\ _encode_sku "sku with spaces" = "sku%20with%20spaces"
  /\ (forall a b, _encode_sku (a ++ b) = _encode_sku a ++ _encode_sku b)
  /\ (forall c, _encode_sku (String c "") = String c "" <-> Quote.always_safe c = true)
  /\ (forall sku c, Quote.mem c (_encode_sku sku) = true ->
                    c = "%"%char \/ Quote.always_safe c = true)
  /\ (forall sku, Quote.mem "/" (_encode_sku sku) = false)
  /\ (forall sku, Quote.mem " " (_encode_sku sku) = false)
  /\ _encode_sku "/" = "%2F"
  /\ _encode_sku " " = "%20"
  /\ (forall sku,
        (forall c, Quote.mem c sku = true -> Quote.is_alnum c = true \/ c = "-"%char) ->
        _encode_sku sku = sku).
Proof.
  unfold _encode_sku.
  repeat split; try reflexivity.
  - intros a b. apply quote_app.
  - cbn. unfold Quote.quote_byte. cbn [Quote.mem]. rewrite orb_false_r.
    destruct (Quote.always_safe c) eqn:E; [reflexivity|].
    unfold Quote.percent. intros H. injection H as _ H. discriminate H.
  - intros H. cbn. unfold Quote.quote_byte. now rewrite H.
  - intros sku c. apply quote_chars.
  - intros sku. destruct (Quote.mem "/" (Quote.quote sku "")) eqn:E; [|reflexivity].
    apply quote_chars in E. destruct E as [E | E]; discriminate E.
  - intros sku. destruct (Quote.mem " " (Quote.quote sku "")) eqn:E; [|reflexivity].
    apply quote_chars in E. destruct E as [E | E]; discriminate E.
  - intros sku H. apply quote_safe_id. intros c Hc.
    destruct (H c Hc) as [E | ->]; [|reflexivity].
    unfold Quote.always_safe. now rewrite E.
Qed.

Lemma encode_sku_single_segment_witness : _encode_sku "TEST-SKU-1" = "TEST-SKU-1".
Proof.
  apply encode_sku_single_segment.
  intros c H. cbn in H.
  repeat (apply orb_true_iff in H; destruct H as [H | H];
          [apply Ascii.eqb_eq in H; subst c; (now left) || (now right) |]).
  discriminate H.
Defined.

(** ** The tolerant comparison *)

Section Tolerance.

Lemma spec_equalb_iff (l r : Q) : spec_equalb l r = true <-> spec_equal l r.
Proof. unfold spec_equalb, spec_equal. apply Qle_bool_iff. Qed.

Lemma spec_equalb_false (l r : Q) : spec_equalb l r = false <-> ~ spec_equal l r.
Proof.
  rewrite <- spec_equalb_iff.
  destruct (spec_equalb l r); split; intros H;
    try reflexivity; try discriminate. now elim H.
Qed.

(** [math.isclose], spelled out. *)
Lemma isclose_iff (a b rel_tol abs_tol : float) :
  isclose a b rel_tol abs_tol = true
  <-> (a =? b)%float = true
      \/ (is_infinity a = false /\ is_infinity b = false
          /\ ((abs (b - a) <=? abs (rel_tol * b))%float = true
              \/ (abs (b - a) <=? abs (rel_tol * a))%float = true
              \/ (abs (b - a) <=? abs_tol)%float = true)).
Proof.
  unfold isclose.
  destruct (a =? b)%float; [split; auto|].
  destruct (is_infinity a); cbn [orb].
  { split; [discriminate|]. intros [H | (H & _)]; discriminate H. }
  destruct (is_infinity b); cbn [orb].
  { split; [discriminate|]. intros [H | (_ & H & _)]; discriminate H. }
  rewrite !orb_true_iff. split.
  - intros [[H | H] | H]; right; auto.
  - intros [H | (_ & _ & [H | [H | H]])]; [discriminate H | auto..].
Qed.

End Tolerance.

(** ** The client: fetching a stock record *)

Section Fetch.
Context {host : Host}.

Lemma error_status_dec (code : Z) : {error_status code} + {~ error_status code}.
Proof.
  unfold error_status.
  destruct (Z_le_dec 400 code); destruct (Z_lt_dec code 600);
    (left; lia) || (right; lia).
Defined.

Lemma http_error_msg_nil url r :
  http_error_msg url r = [] <-> ~ error_status (status_code r).
Proof.
  unfold http_error_msg, error_status.
  destruct (400 <=? status_code r)%Z eqn:A; destruct (status_code r <? 500)%Z eqn:B;
    destruct (500 <=? status_code r)%Z eqn:C; destruct (status_code r <? 600)%Z eqn:D;
    cbn; split; intros H; try reflexivity; try discriminate H; lia.
Qed.

(** [get_stock_item], case by case on what the session answers. *)
Lemma get_stock_item_eq (self : MagentoClient) (sku : string) (w : world) :
  get_stock_item self sku w =
  let req := stock_item_request self sku in
  let w1 := record (Sent req) w in
  match transport (trace w) req with
  | Responded resp =>
      if (status_code resp =? 404)%Z then
        (Ok VNone,
         record (Logged DEBUG (lit "SKU '" ++ lit sku ++ lit "' not found in Magento")) w1)
      else
        match http_error_msg (req_url req) resp with
        | [] => match body resp with
                | Json v => (Ok v, w1)
                | NotJson err => fetch_failed sku (lit err) w1
                end
        | msg => fetch_failed sku msg w1
        end
  | TimedOut =>
      (Raise (MagentoClientError
                (lit "Timeout getting stock for SKU '" ++ lit sku ++ lit "'")),
       record (Logged ERROR (lit "Timeout getting stock for SKU '" ++ lit sku ++ lit "'"))
              w1)
  | Failed e => fetch_failed sku (lit e) w1
  end.
Proof.
  unfold get_stock_item, try_except, bind, session_get, session_request.
  fold (stock_item_request self sku).
  destruct (transport (trace w) (stock_item_request self sku)) as [resp | | e];
    cbn; try reflexivity.
  destruct (status_code resp =? 404)%Z; [reflexivity|].
  unfold raise_for_status, response_json.
  destruct (http_error_msg _ resp); cbn; [|reflexivity].
  destruct (body resp); reflexivity.
Qed.

Lemma fetch_failed_mentions sku e w :
  exists msg, fst (fetch_failed sku e w) = Raise (MagentoClientError msg)
              /\ mentions sku msg.
Proof. eexists; split; [reflexivity|]. cbn. auto. Qed.

End Fetch.

(** C2, as the code has it. Whatever the server answers to the one request
    [get_stock_item] sends for a SKU:
    - a 404 response gives [None], and nothing is raised;
    - a response whose status is outside 400..599 (every 2xx, but also a 1xx
      or 3xx status, which [raise_for_status] lets through) and whose body
      is JSON gives the parsed body;
    - a 4xx or 5xx status other than 404, a body that is not JSON, a timeout
      and any other failure of the transport (retries used up included) raise
      [MagentoClientError] with the SKU in its message;
    - nothing but such a [MagentoClientError] is ever raised. *)
Theorem get_stock_item_outcomes {host : Host} (self : MagentoClient) (sku : string)
        (w : world) :
  let req := stock_item_request self sku in
  let res := fst (get_stock_item self sku w) in
  let raises_for_sku :=
    exists msg, res = Raise (MagentoClientError msg) /\ mentions sku msg in
  (forall resp, transport (trace w) req = Responded resp ->
                status_code resp = 404%Z -> res = Ok VNone)
  /\ (forall resp v, transport (trace w) req = Responded resp ->
                     ~ error_status (status_code resp) ->
                     body resp = Json v -> res = Ok v)
  /\ (forall resp v, transport (trace w) req = Responded resp ->
                     success_status (status_code resp) ->
                     body resp = Json v -> res = Ok v)
  /\ (forall resp, transport (trace w) req = Responded resp ->
                   error_status (status_code resp) -> status_code resp <> 404%Z ->
                   raises_for_sku)
  /\ (forall resp err, transport (trace w) req = Responded resp ->
                       ~ error_status (status_code resp) ->
                       body resp = NotJson err -> raises_for_sku)
  /\ (transport (trace w) req = TimedOut -> raises_for_sku)
  /\ (forall e, transport (trace w) req = Failed e -> raises_for_sku)
  /\ (forall e, res = Raise e ->
                exists msg, e = MagentoClientError msg /\ mentions sku msg).
Proof.
  intros req res raises_for_sku. subst res raises_for_sku.
  rewrite get_stock_item_eq. fold req. cbv zeta.
  assert (Hnot404 : forall code, ~ error_status code -> (code =? 404)%Z = false).
  { intros code Hc. apply Z.eqb_neq. unfold error_status in Hc. lia. }
  repeat split.
  - intros resp -> Hs. now rewrite Hs.
  - intros resp v -> Hs Hb.
    rewrite (Hnot404 _ Hs).
    now rewrite (proj2 (http_error_msg_nil (req_url req) resp) Hs), Hb.
  - intros resp v -> Hs Hb.
    assert (Hs' : ~ error_status (status_code resp))
      by (unfold success_status, error_status in *; lia).
    rewrite (Hnot404 _ Hs').
    now rewrite (proj2 (http_error_msg_nil (req_url req) resp) Hs'), Hb.
  - intros resp -> Hs Hn.
    apply Z.eqb_neq in Hn. rewrite Hn.
    destruct (http_error_msg (req_url req) resp) eqn:E.
    + apply http_error_msg_nil in E. contradiction.
    + apply fetch_failed_mentions.
  - intros resp err -> Hs Hb.
    rewrite (Hnot404 _ Hs).
    rewrite (proj2 (http_error_msg_nil (req_url req) resp) Hs), Hb.
    apply fetch_failed_mentions.
  - intros ->. eexists; split; [reflexivity|]. cbn. auto.
  - intros e ->. apply fetch_failed_mentions.
  - destruct (transport (trace w) req) as [resp | | e0].
    + destruct (status_code resp =? 404)%Z; [discriminate|].
      destruct (http_error_msg (req_url req) resp).
      * destruct (body resp); [discriminate|].
        cbn. intros e [= <-]. eexists; split; [reflexivity|]. cbn. auto.
      * cbn. intros e [= <-]. eexists; split; [reflexivity|]. cbn. auto.
    + cbn. intros e [= <-]. eexists; split; [reflexivity|]. cbn. auto.
    + cbn. intros e [= <-]. eexists; split; [reflexivity|]. cbn. auto.
Qed.

(** HTTP 500 for the SKU of the tests: [MagentoClientError] with that SKU. *)
Lemma get_stock_item_outcomes_witness :
  exists msg,
    fst (@get_stock_item (served_by (always server_error)) shop "TEST-SKU" fresh)
    = Raise (MagentoClientError msg)
    /\ mentions "TEST-SKU" msg.
Proof.
  refine (proj1 (proj2 (proj2 (proj2
            (@get_stock_item_outcomes (served_by (always server_error)) shop "TEST-SKU"
                                      fresh)))) server_error _ _ _).
  - reflexivity.
  - unfold error_status. cbn. lia.
  - cbn. lia.
Defined.

(** C2, as stated, fails: a 300 response is neither 404 nor 2xx, and its
    JSON body is returned, nothing being raised; and a 204 response, which is
    2xx, has no body to parse, so that [MagentoClientError] is raised. *)
Lemma get_stock_item_not_only_2xx :
  (~ success_status (status_code multiple_choices)
   /\ status_code multiple_choices <> 404%Z
   /\ fst (@get_stock_item (served_by (always multiple_choices)) shop "TEST-SKU" fresh)
      = Ok (VDict [("item_id", VInt 123); ("qty", VInt 50)]))
  /\ (success_status (status_code no_content)
      /\ exists msg,
          fst (@get_stock_item (served_by (always no_content)) shop "TEST-SKU" fresh)
          = Raise (MagentoClientError msg)).
Proof.
  split; [split; [|split] | split].
  - unfold success_status. cbn. lia.
  - cbn. lia.
  - reflexivity.
  - unfold success_status. cbn. lia.
  - eexists. reflexivity.
Qed.

(** ** The client: updating a stock record *)

Section Update.
Context {host : Host}.

Lemma writes_app t1 t2 : writes (t1 ++ t2)%list = (writes t1 ++ writes t2)%list.
Proof.
  induction t1 as [|ev t1 IH]; [reflexivity|].
  destruct ev as [r | m k | lvl msg]; cbn; [|exact IH|exact IH].
  destruct (req_method r); cbn; now rewrite IH.
Qed.

Lemma requests_app t1 t2 :
  requests (t1 ++ t2)%list = (requests t1 ++ requests t2)%list.
Proof.
  induction t1 as [|ev t1 IH]; [reflexivity|].
  destruct ev; cbn; now rewrite IH.
Qed.

Lemma queries_app t1 t2 : queries (t1 ++ t2)%list = (queries t1 ++ queries t2)%list.
Proof.
  induction t1 as [|ev t1 IH]; [reflexivity|].
  destruct ev; cbn; now rewrite IH.
Qed.

(** A fetch sends its one [GET], and then logs at most. *)
Lemma get_stock_item_trace (self : MagentoClient) (sku : string) (w : world) :
  exists logs,
    trace (snd (get_stock_item self sku w))
    = (trace w ++ Sent (stock_item_request self sku) :: logs)%list
    /\ requests logs = [] /\ queries logs = [].
Proof.
  rewrite get_stock_item_eq. cbv zeta.
  destruct (transport (trace w) (stock_item_request self sku)) as [resp | | e].
  - destruct (status_code resp =? 404)%Z.
    + eexists. cbn. rewrite <- app_assoc. cbn. repeat split.
    + destruct (http_error_msg _ resp).
      * destruct (body resp).
        -- exists []. cbn. repeat split.
        -- eexists. cbn. rewrite <- app_assoc. cbn. repeat split.
      * eexists. cbn. rewrite <- app_assoc. cbn. repeat split.
  - eexists. cbn. rewrite <- app_assoc. cbn. repeat split.
  - eexists. cbn. rewrite <- app_assoc. cbn. repeat split.
Qed.

Lemma get_stock_item_writes (self : MagentoClient) (sku : string) (w : world) :
  writes (trace (snd (get_stock_item self sku w))) = writes (trace w).
Proof.
  destruct (get_stock_item_trace self sku w) as (logs & -> & Hr & _).
  rewrite writes_app. cbn.
  assert (Hw : writes logs = []).
  { clear - Hr. induction logs as [|ev l IH]; [reflexivity|].
    destruct ev; cbn in *; try discriminate; now apply IH. }
  rewrite Hw. apply app_nil_r.
Qed.

(** [update_stock_qty], case by case on the fetch and on what the session
    answers to the write. *)
Lemma update_stock_qty_eq (self : MagentoClient) (sku : string) (qty : number)
      (o : option bool) (w : world) :
  update_stock_qty self sku qty o w =
  match get_stock_item self sku w with
  | (Raise e, w1) => (Raise e, w1)
  | (Ok VNone, w1) =>
      (Ok false,
       record (Logged WARNING (lit "Cannot update stock: SKU '" ++ lit sku
                               ++ lit "' not found in Magento")) w1)
  | (Ok (VDict d), w1) =>
      if negb (truthy (item_id_of d)) then
        (Ok false,
         record (Logged ERROR (lit "No item_id found for SKU '" ++ lit sku ++ lit "'")) w1)
      else
        let req := stock_item_write self sku (item_id_of d) qty o in
        let w2 := record (Sent req) w1 in
        match transport (trace w1) req with
        | Responded resp =>
            match http_error_msg (req_url req) resp with
            | [] =>
                (Ok true,
                 record (Logged INFO
                           (lit "Updated Magento stock for '" ++ lit sku ++ lit "': qty="
                            ++ fmt (number_value qty) ++ lit ", in_stock="
                            ++ fmt (VBool (in_stock_flag qty o)))) w2)
            | msg => update_failed sku msg w2
            end
        | TimedOut =>
            (Raise (MagentoClientError
                      (lit "Timeout updating stock for SKU '" ++ lit sku ++ lit "'")),
             record (Logged ERROR
                       (lit "Timeout updating stock for SKU '" ++ lit sku ++ lit "'")) w2)
        | Failed e => update_failed sku (lit e) w2
        end
  | (Ok _, w1) => (Raise AttributeError, w1)
  end.
Proof.
  unfold update_stock_qty. unfold bind at 1.
  destruct (get_stock_item self sku w) as [[v | e] w1]; [|reflexivity].
  destruct v as [| b | z | f | s | l | d]; try reflexivity.
  unfold py_get, bind at 1, ret. fold (item_id_of d).
  destruct (truthy (item_id_of d)); [|reflexivity].
  cbn [negb]. fold (in_stock_flag qty o). fold (stock_item_body qty (in_stock_flag qty o)).
  unfold try_except, bind, session_put, session_request.
  fold (stock_item_write self sku (item_id_of d) qty o).
  cbv zeta.
  destruct (transport (trace w1) (stock_item_write self sku (item_id_of d) qty o))
    as [resp | | e]; try reflexivity.
  unfold raise_for_status.
  destruct (http_error_msg _ resp); reflexivity.
Qed.

End Update.

(** C9. When the fetch is answered by a 2xx response whose body is a record
    without a [qty] field, [get_stock_qty] returns 0.0. *)
Theorem get_stock_qty_defaults_to_zero {host : Host} (self : MagentoClient)
        (sku : string) (w : world) (resp : response) (d : list (string * value)) :
  transport (trace w) (stock_item_request self sku) = Responded resp ->
  success_status (status_code resp) ->
  body resp = Json (VDict d) ->
  assoc "qty" d = None ->
  fst (get_stock_qty self sku w) = Ok (Some 0%float).
Proof.
  intros Ht Hs Hb Hq.
  assert (Hs' : ~ error_status (status_code resp))
    by (unfold success_status, error_status in *; lia).
  assert (Hn : (status_code resp =? 404)%Z = false)
    by (apply Z.eqb_neq; unfold success_status in Hs; lia).
  unfold get_stock_qty, bind.
  rewrite get_stock_item_eq. cbv zeta.
  rewrite Ht, Hn, (proj2 (http_error_msg_nil _ resp) Hs'), Hb.
  cbn. now rewrite Hq.
Qed.

Lemma get_stock_qty_defaults_to_zero_witness :
  fst (@get_stock_qty (served_by (always bare_record)) shop "TEST-SKU" fresh)
  = Ok (Some 0%float).
Proof.
  apply (@get_stock_qty_defaults_to_zero (served_by (always bare_record)) shop
           "TEST-SKU" fresh bare_record [("is_in_stock", VBool true)]).
  - reflexivity.
  - unfold success_status. cbn. lia.
  - reflexivity.
  - reflexivity.
Defined.

(** C3. When the fetch inside [update_stock_qty] reports the SKU absent, or
    gives a record without [item_id] (the key is missing, or its value is
    falsy), [update_stock_qty] returns [False], raises nothing, and sends no
    write: its only request is the fetch. *)
Theorem update_without_record {host : Host} (self : MagentoClient) (sku : string)
        (qty : number) (o : option bool) (w : world) :
  (fst (get_stock_item self sku w) = Ok VNone
   \/ exists d, fst (get_stock_item self sku w) = Ok (VDict d)
                /\ (assoc "item_id" d = None \/ truthy (item_id_of d) = false)) ->
  let final := update_stock_qty self sku qty o w in
  fst final = Ok false
  /\ writes (trace (snd final)) = writes (trace w)
  /\ requests (trace (snd final))
     = (requests (trace w) ++ [stock_item_request self sku])%list.
Proof.
  intros H final. subst final.
  rewrite update_stock_qty_eq.
  pose proof (get_stock_item_writes self sku w) as Hw.
  destruct (get_stock_item_trace self sku w) as (logs & Ht & Hr & _).
  destruct (get_stock_item self sku w) as [r w1]. cbn in H, Hw, Ht.
  assert (Hreq : requests (trace w1)
                 = (requests (trace w) ++ [stock_item_request self sku])%list).
  { rewrite Ht, requests_app. cbn. now rewrite Hr. }
  destruct H as [-> | (d & -> & Hd)].
  - cbn. rewrite writes_app, requests_app. cbn. rewrite !app_nil_r. auto.
  - assert (Hid : truthy (item_id_of d) = false).
    { destruct Hd as [Hd | Hd]; [|exact Hd]. unfold item_id_of. now rewrite Hd. }
    rewrite Hid. cbn.
    rewrite writes_app, requests_app. cbn. rewrite !app_nil_r. auto.
Qed.

(** The SKU is unknown to the server; and the record has no identifier. *)
Lemma update_without_record_witness :
  (let final := @update_stock_qty (served_by (always not_found)) shop "UNKNOWN" (NInt 50) None
                                  fresh in
   fst final = Ok false
   /\ writes (trace (snd final)) = []
   /\ requests (trace (snd final)) = [stock_item_request shop "UNKNOWN"])
  /\ (let final := @update_stock_qty (served_by (always bare_record)) shop "TEST-SKU" (NInt 50)
                                     None fresh in
      fst final = Ok false
      /\ writes (trace (snd final)) = []
      /\ requests (trace (snd final)) = [stock_item_request shop "TEST-SKU"]).
Proof.
  split.
  - apply (@update_without_record (served_by (always not_found)) shop "UNKNOWN" (NInt 50) None
                                  fresh).
    left. reflexivity.
  - apply (@update_without_record (served_by (always bare_record)) shop "TEST-SKU" (NInt 50)
                                  None fresh).
    right. exists [("is_in_stock", VBool true)]. split; [reflexivity|]. now left.
Defined.

Section Flag.


Lemma magnitude_positive (m : positive) (e : Z) :
  0 < match e with
      | Z0 => Zpos m # 1
      | Zpos k => (Zpos m * 2 ^ Zpos k)%Z # 1
      | Zneg k => Zpos m # (2 ^ k)%positive
      end.
Proof.
  destruct e as [| k | k]; unfold Qlt; cbn [Qnum Qden]; lia.
Qed.

(** The comparison [qty > 0] of the machine holds exactly for the numbers
    above zero. *)
Lemma gt_zero_positive (f : float) : (0 <? f)%float = true <-> Binary64.positive f.
Proof.
  rewrite FloatAxioms.ltb_spec. unfold Binary64.positive, Binary64.exact.
  change (FloatOps.Prim2SF 0) with (S754_zero false).
  split.
  - intros H. pose proof (FloatAxioms.SF2Prim_Prim2SF f) as Hf.
    destruct (FloatOps.Prim2SF f) as [s | s | | s m e]; cbn in H; try discriminate H.
    + destruct s; [discriminate H|]. left. now rewrite <- Hf.
    + destruct s; [discriminate H|]. right. eexists. split; [reflexivity|].
      apply magnitude_positive.
  - intros [-> | (v & Hv & Hpos)]; [reflexivity|].
    destruct (FloatOps.Prim2SF f) as [s | s | | s m e]; try discriminate Hv.
    + injection Hv as <-. discriminate Hpos.
    + destruct s; [|reflexivity]. injection Hv as <-.
      pose proof (magnitude_positive m e) as Hm.
      exfalso. apply Qopp_lt_compat in Hpos.
      rewrite Qopp_involutive in Hpos. change (- 0) with 0 in Hpos.
      apply (Qlt_irrefl 0). eapply Qlt_trans; eauto.
Qed.

Lemma in_stock_flag_auto (qty : number) :
  in_stock_flag qty None = true <-> above_zero qty.
Proof.
  destruct qty as [z | f]; cbn.
  - apply Z.ltb_lt.
  - apply gt_zero_positive.
Qed.

End Flag.

(** C4, as the code has it. Every write [update_stock_qty] sends carries
    exactly [{"stockItem": {"qty": q, "is_in_stock": f}}], where [f] is the
    override when there is one and [q > 0] otherwise, which holds when [q]
    is an integer above zero, a finite binary64 number above zero or plus
    infinity (so [true] for 100 and [false] for 0); the write is sent once, when the fetched record has an
    identifier; and [True] is returned only when that write was answered by
    a response whose status is outside 400..599, as every 2xx response is. *)
Theorem update_write_and_result {host : Host} (self : MagentoClient) (sku : string)
        (qty : number) (o : option bool) (w : world) :
  let final := update_stock_qty self sku qty o w in
  let w1 := snd (get_stock_item self sku w) in
  let body := stock_item_body qty (in_stock_flag qty o) in
  (forall r, In r (writes (trace (snd final))) ->
             In r (writes (trace w)) \/ req_json r = Some body)
  /\ (o = None -> (in_stock_flag qty o = true <-> above_zero qty))
  /\ (forall b, o = Some b -> in_stock_flag qty o = b)
  /\ (in_stock_flag (NInt 100) None = true /\ in_stock_flag (NFloat 100) None = true)
  /\ (in_stock_flag (NInt 0) None = false /\ in_stock_flag (NFloat 0) None = false)
  /\ (fst final = Ok true ->
      exists r resp,
        req_method r = PUT /\ req_json r = Some body
        /\ writes (trace (snd final)) = (writes (trace w) ++ [r])%list
        /\ transport (trace w1) r = Responded resp
        /\ ~ error_status (status_code resp))
  /\ (forall d, fst (get_stock_item self sku w) = Ok (VDict d) ->
                truthy (item_id_of d) = true ->
                let r := stock_item_write self sku (item_id_of d) qty o in
                writes (trace (snd final)) = (writes (trace w) ++ [r])%list
                /\ forall resp, transport (trace w1) r = Responded resp ->
                                success_status (status_code resp) ->
                                fst final = Ok true).
Proof.
  intros final w1 body. subst final w1 body.
  rewrite update_stock_qty_eq.
  pose proof (get_stock_item_writes self sku w) as Hw.
  destruct (get_stock_item self sku w) as [r1 w1]. cbn [fst snd] in *.
  split; [|split; [|split; [|split; [|split; [|split]]]]].
  - (* the body of every write *)
    intros r.
    destruct r1 as [v | e]; [|cbn; rewrite Hw; auto].
    destruct v as [| b | z | f | s | l | d]; cbn [fst snd];
      try (cbn; rewrite ?writes_app, Hw; cbn; rewrite ?app_nil_r; auto; fail).
    destruct (truthy (item_id_of d)); cbn [negb];
      [|cbn; rewrite writes_app, Hw; cbn; rewrite app_nil_r; auto].
    cbv zeta.
    assert (Hsent : forall l,
               In r (writes (trace w1 ++ Sent (stock_item_write self sku (item_id_of d) qty o)
                                   :: l)%list) ->
               writes l = [] ->
               In r (writes (trace w)) \/
               req_json r = Some (stock_item_body qty (in_stock_flag qty o))).
    { intros l Hin Hl. rewrite writes_app, Hw in Hin. cbn in Hin. rewrite Hl in Hin.
      apply in_app_or in Hin. destruct Hin as [Hin | [<- | []]]; [now left | now right]. }
    destruct (transport (trace w1) _) as [resp | | e].
    + destruct (http_error_msg _ resp); cbn [snd update_failed record trace];
        rewrite <- app_assoc; cbn [app]; intros Hin; eapply Hsent; eauto.
    + cbn [snd record trace]. rewrite <- app_assoc; cbn [app].
      intros Hin; eapply Hsent; eauto.
    + cbn [snd update_failed record trace]. rewrite <- app_assoc; cbn [app].
      intros Hin; eapply Hsent; eauto.
  - intros ->. apply in_stock_flag_auto.
  - intros b ->. reflexivity.
  - split; reflexivity.
  - split; reflexivity.
  - (* [True] only after an accepted write *)
    destruct r1 as [v | e]; [|discriminate].
    destruct v as [| b | z | f | s | l | d]; cbn [fst snd]; try discriminate.
    destruct (truthy (item_id_of d)); cbn [negb]; [|discriminate].
    cbv zeta.
    destruct (transport (trace w1) _) as [resp | | e] eqn:Ht; try discriminate.
    destruct (http_error_msg _ resp) eqn:Hm; [|discriminate].
    intros _. exists (stock_item_write self sku (item_id_of d) qty o), resp.
    repeat split.
    + cbn. rewrite <- app_assoc, writes_app, Hw. reflexivity.
    + exact Ht.
    + now apply http_error_msg_nil in Hm.
  - (* a record with an identifier: the write is sent, and 2xx gives [True] *)
    intros d [= ->] Hid. cbv zeta. rewrite Hid. cbn [negb].
    split.
    + destruct (transport (trace w1) _) as [resp | | e];
        [destruct (http_error_msg _ resp)| |];
        cbn [snd update_failed record trace];
        rewrite <- app_assoc, writes_app, Hw; reflexivity.
    + intros resp -> Hs.
      assert (Hs' : ~ error_status (status_code resp))
        by (unfold success_status, error_status in *; lia).
      apply (http_error_msg_nil
               (req_url (stock_item_write self sku (item_id_of d) qty o))) in Hs'.
      now rewrite Hs'.
Qed.

Lemma update_write_and_result_witness :
  let final := @update_stock_qty (served_by (one_record record_456 200)) shop "TEST-SKU"
                                 (NInt 100) None fresh in
  writes (trace (snd final)) = [stock_item_write shop "TEST-SKU" (VInt 456) (NInt 100) None]
  /\ req_json (stock_item_write shop "TEST-SKU" (VInt 456) (NInt 100) None)
     = Some (stock_item_body (NInt 100) true)
  /\ fst final = Ok true.
Proof.
  pose proof (@update_write_and_result (served_by (one_record record_456 200)) shop
                "TEST-SKU" (NInt 100) None fresh) as H.
  cbv zeta in H.
  destruct H as (_ & _ & _ & _ & _ & _ & H).
  specialize (H [("item_id", VInt 456); ("qty", VInt 10); ("is_in_stock", VBool true)]
                eq_refl eq_refl).
  destruct H as [Hw Hr].
  split; [exact Hw | split; [reflexivity|]].
  apply (Hr {| status_code := 200; reason := ""; body := Json (VInt 456) |}).
  - reflexivity.
  - unfold success_status. cbn. lia.
Defined.

(** C4, as stated, fails in its last part: a write answered by 304, which
    is not a 2xx status, makes [update_stock_qty] return [True]. *)
Lemma update_true_on_not_modified :
  let h := served_by (one_record record_456 304) in
  let w1 := snd (@get_stock_item h shop "TEST-SKU" fresh) in
  exists resp,
    @transport h (trace w1) (stock_item_write shop "TEST-SKU" (VInt 456) (NInt 100) None)
    = Responded resp
    /\ status_code resp = 304%Z
    /\ ~ success_status (status_code resp)
    /\ fst (@update_stock_qty h shop "TEST-SKU" (NInt 100) None fresh) = Ok true.
Proof.
  eexists. split; [reflexivity|]. split; [reflexivity|]. split; [|reflexivity].
  unfold success_status. cbn. lia.
Qed.

(** ** The engine: one reconciliation attempt *)

Section Reconciliation.
Context {host : Host}.

Lemma truthy_name (s : string) : s <> "" -> negb (truthy (VStr s)) = false.
Proof.
  intros H. cbn. rewrite negb_involutive. now apply String.eqb_neq.
Qed.

(** Reading the quantity out of the fetched record changes nothing. *)
Lemma get_stock_qty_world (self : MagentoClient) (sku : string) (w : world) :
  snd (get_stock_qty self sku w) = snd (get_stock_item self sku w).
Proof.
  unfold get_stock_qty, bind.
  destruct (get_stock_item self sku w) as [[v | e] w1]; [|reflexivity].
  destruct v as [| b | z | f | s | l | d]; try reflexivity.
  cbn. destruct (assoc "qty" d) as [x|]; [|reflexivity].
  destruct x as [| b | z | f | s | l | d']; try reflexivity.
  - unfold py_float. destruct (is_infinity (Binary64.of_int z)); reflexivity.
  - cbn. destruct (float_of_str s); reflexivity.
Qed.

Lemma get_stock_qty_requests (self : MagentoClient) (sku : string) (w : world) :
  requests (trace (snd (get_stock_qty self sku w)))
  = (requests (trace w) ++ [stock_item_request self sku])%list
  /\ writes (trace (snd (get_stock_qty self sku w))) = writes (trace w)
  /\ queries (trace (snd (get_stock_qty self sku w))) = queries (trace w).
Proof.
  rewrite get_stock_qty_world, get_stock_item_writes.
  destruct (get_stock_item_trace self sku w) as (logs & -> & Hr & Hq).
  rewrite requests_app, queries_app. cbn. rewrite Hr, Hq, app_nil_r. auto.
Qed.

(** [_sync_part] for a part with a name, case by case on the fetch, the
    comparison, the policy and the update. *)
Lemma sync_part_eq (cfg : settings) (part : Part) (client : MagentoClient)
      (kind : string) (w : world) :
  name part <> "" ->
  _sync_part cfg part client kind w =
  let sku := name part in
  let total_qty := Binary64.of_decimal (total_stock part) in
  match get_stock_qty client sku w with
  | (Raise (MagentoClientError e), w1) => (Ok tt, record (log_api_error kind sku e) w1)
  | (Raise e, w1) => (Raise e, w1)
  | (Ok None, w1) => (Ok tt, record (log_not_found kind sku) w1)
  | (Ok (Some m2_qty), w1) =>
      if isclose total_qty m2_qty 1e-9 0.001 then
        (Ok tt, record (log_in_sync kind sku total_qty) w1)
      else if LOG_ONLY cfg then
        (Ok tt, record (log_would_sync kind sku m2_qty total_qty) w1)
      else
        match update_stock_qty client sku (NFloat total_qty) None w1 with
        | (Ok true, w2) => (Ok tt, record (log_synced kind sku m2_qty total_qty) w2)
        | (Ok false, w2) => (Ok tt, record (log_sync_failed kind sku) w2)
        | (Raise (MagentoClientError e), w2) =>
            (Ok tt, record (log_api_error kind sku e) w2)
        | (Raise e, w2) => (Raise e, w2)
        end
  end.
Proof.
  intros Hname. unfold _sync_part. rewrite (truthy_name _ Hname).
  unfold try_except. unfold bind at 1. cbv zeta.
  destruct (get_stock_qty client (name part) w) as [[[m2_qty|] | e] w1].
  - destruct (isclose _ _ _ _); [reflexivity|].
    destruct (LOG_ONLY cfg); [reflexivity|].
    unfold bind.
    destruct (update_stock_qty client (name part) _ None w1)
      as [[[] | e] w2]; try reflexivity.
    destruct e; reflexivity.
  - reflexivity.
  - destruct e; reflexivity.
Qed.

(** An update call starts with its own fetch of the record. *)
Lemma update_stock_qty_requests (self : MagentoClient) (sku : string) (qty : number)
      (o : option bool) (w : world) :
  exists rest,
    requests (trace (snd (update_stock_qty self sku qty o w)))
    = (requests (trace w) ++ stock_item_request self sku :: rest)%list.
Proof.
  rewrite update_stock_qty_eq.
  destruct (get_stock_item_trace self sku w) as (logs & Ht & Hr & _).
  destruct (get_stock_item self sku w) as [r w1]. cbn [snd] in Ht.
  assert (Hreq : requests (trace w1)
                 = (requests (trace w) ++ [stock_item_request self sku])%list).
  { rewrite Ht, requests_app. cbn. now rewrite Hr. }
  assert (Hlog : forall lvl msg,
             requests (trace (record (Logged lvl msg) w1))
             = (requests (trace w) ++ [stock_item_request self sku])%list).
  { intros. cbn. rewrite requests_app. cbn. now rewrite app_nil_r. }
  assert (Hput : forall req lvl msg,
             requests (trace (record (Logged lvl msg) (record (Sent req) w1)))
             = (requests (trace w) ++ stock_item_request self sku :: [req])%list).
  { intros. cbn. rewrite !requests_app, Hreq. cbn.
    rewrite app_nil_r, <- app_assoc. reflexivity. }
  destruct r as [v | e]; [|exists []; exact Hreq].
  destruct v as [| b | z | f | s | l | d]; cbn [snd];
    try (exists []; exact Hreq); try (exists []; apply Hlog).
  destruct (truthy (item_id_of d)); cbn [negb]; [|exists []; apply Hlog].
  cbv zeta.
  destruct (transport (trace w1) _) as [resp | | e];
    [destruct (http_error_msg _ resp)| |];
    eexists; cbn [snd update_failed]; apply Hput.
Qed.

End Reconciliation.

(** C1, as the code has it. Once the remote quantity [r] has been fetched,
    [_sync_part] compares it with [l], the binary64 number nearest to the
    local total, by [math.isclose(l, r, rel_tol=1e-9, abs_tol=0.001)] in
    binary64 arithmetic: they are in sync exactly when they are equal, or
    both are finite and the rounded [|r - l|] is at most the rounded
    [1e-9 * |r|], the rounded [1e-9 * |l|], or the binary64 number nearest
    to 0.001. In sync, the attempt ends with a debug record and sends
    nothing more, no write in particular; otherwise, when [LOG_ONLY] is
    off, [update_stock_qty] runs from the state the fetch left, which shows
    as one more request for the record. 50.0000001 against 50 is in sync,
    and no write is sent; 50.002 against 50 is not, and one write is sent,
    with the local quantity; the formula on exact numbers has it so too. *)
Theorem sync_part_tolerant_comparison {host : Host} (cfg : settings) (part : Part)
        (client : MagentoClient) (kind : string) (w w1 : world) (r : float) :
  name part <> "" ->
  get_stock_qty client (name part) w = (Ok (Some r), w1) ->
  let l := Binary64.of_decimal (total_stock part) in
  let final := _sync_part cfg part client kind w in
  (isclose l r 1e-9 0.001 = true
   <-> (l =? r)%float = true
       \/ (is_infinity l = false /\ is_infinity r = false
           /\ ((abs (r - l) <=? abs (1e-9 * r))%float = true
               \/ (abs (r - l) <=? abs (1e-9 * l))%float = true
               \/ (abs (r - l) <=? 0.001)%float = true)))
  /\ (isclose l r 1e-9 0.001 = true ->
      final = (Ok tt, record (log_in_sync kind (name part) l) w1)
      /\ requests (trace (snd final)) = requests (trace w1)
      /\ writes (trace (snd final)) = writes (trace w))
  /\ (isclose l r 1e-9 0.001 = false -> LOG_ONLY cfg = false ->
      exists logs rest,
        trace (snd final)
        = (trace (snd (update_stock_qty client (name part) (NFloat l) None w1)) ++ logs)%list
        /\ requests logs = []
        /\ requests (trace (snd final))
           = (requests (trace w1) ++ stock_item_request client (name part) :: rest)%list)
  /\ (let h := served_by (one_record remote_50 200) in
      isclose (Binary64.of_decimal (500000001 # 10000000)) 50 1e-9 0.001 = true
      /\ writes (trace (snd (@_sync_part h live (widget (500000001 # 10000000)) shop
                                         "stockitem.counted" fresh)))
         = [])
  /\ (let h := served_by (one_record remote_50 200) in
      isclose (Binary64.of_decimal (50002 # 1000)) 50 1e-9 0.001 = false
      /\ writes (trace (snd (@_sync_part h live (widget (50002 # 1000)) shop
                                         "stockitem.counted" fresh)))
         = [stock_item_write shop "WIDGET-1" (VInt 9)
                             (NFloat (Binary64.of_decimal (50002 # 1000))) None])
  /\ spec_equal (500000001 # 10000000) 50
  /\ ~ spec_equal (50002 # 1000) 50.
Proof.
  intros Hname Hfetch l final. subst l final.
  destruct (get_stock_qty_requests client (name part) w) as (_ & Hw & _).
  rewrite Hfetch in Hw. cbn [snd] in Hw.
  rewrite (sync_part_eq cfg part client kind w Hname). cbv zeta. rewrite Hfetch.
  split; [apply isclose_iff|].
  split; [|split; [|split; [|split; [|split]]]].
  - intros Heq. rewrite Heq.
    split; [reflexivity|]. cbn. rewrite requests_app, writes_app, Hw. cbn.
    now rewrite !app_nil_r.
  - intros Hne Hlog. rewrite Hne, Hlog.
    destruct (update_stock_qty_requests client (name part)
                (NFloat (Binary64.of_decimal (total_stock part))) None w1) as [rest Hrest].
    destruct (update_stock_qty client (name part)
                (NFloat (Binary64.of_decimal (total_stock part))) None w1)
      as [[[] | e] w2]; cbn [snd] in Hrest |- *.
    + eexists [_], rest. cbn. rewrite requests_app, Hrest. cbn.
      rewrite app_nil_r. auto.
    + eexists [_], rest. cbn. rewrite requests_app, Hrest. cbn.
      rewrite app_nil_r. auto.
    + destruct e; cbn [snd];
        try (exists [], rest; rewrite app_nil_r; auto; fail).
      eexists [_], rest. cbn. rewrite requests_app, Hrest. cbn.
      rewrite app_nil_r. auto.
  - split; vm_compute; reflexivity.
  - split; vm_compute; reflexivity.
  - apply spec_equalb_iff. reflexivity.
  - apply spec_equalb_false. reflexivity.
Qed.

Lemma sync_part_tolerant_comparison_witness :
  let h := served_by (one_record remote_50 200) in
  let part := widget (500000001 # 10000000) in
  let w1 := snd (@get_stock_qty h shop "WIDGET-1" fresh) in
  @_sync_part h live part shop "stockitem.quantityupdated" fresh
  = (Ok tt,
     record (log_in_sync "stockitem.quantityupdated" "WIDGET-1"
                         (Binary64.of_decimal (500000001 # 10000000))) w1).
Proof.
  intros h part w1.
  assert (Hname : name part <> "") by discriminate.
  assert (Hfetch : @get_stock_qty h shop (name part) fresh = (Ok (Some 50%float), w1))
    by (vm_compute; reflexivity).
  destruct (@sync_part_tolerant_comparison h live part shop "stockitem.quantityupdated"
              fresh w1 50 Hname Hfetch) as (_ & Hsync & _ & (Hclose & _) & _).
  exact (proj1 (Hsync Hclose)).
Defined.

(** C1, as stated, fails within rounding of the tolerance. Read on the
    quantities as they are written: 100.001 against 100 differ by 0.001
    exactly, which the formula accepts, but the binary64 number nearest to
    100.001 lies further than the tolerance from 100, and the code sends an
    update. Read on the binary64 numbers: the number nearest to 0.001 is
    larger than 0.001, so that the formula rejects it against 0, but the
    code, whose tolerance is that same number, finds them in sync and sends
    nothing after the fetch. *)
Lemma sync_part_differs_from_exact_tolerance :
  (spec_equal (100001 # 1000) 100
   /\ isclose (Binary64.of_decimal (100001 # 1000)) (Binary64.of_int 100) 1e-9 0.001
      = false
   /\ writes (trace (snd (@_sync_part (served_by (one_record (remote_record (VInt 100)) 200))
                                      live (widget (100001 # 1000)) shop
                                      "stockitem.counted" fresh)))
      = [stock_item_write shop "WIDGET-1" (VInt 9)
                          (NFloat (Binary64.of_decimal (100001 # 1000))) None])
  /\ (exists v,
        Binary64.exact (Binary64.of_decimal (1 # 1000)) = Some v
        /\ Binary64.exact (Binary64.of_int 0) = Some 0
        /\ ~ spec_equal v 0
        /\ isclose (Binary64.of_decimal (1 # 1000)) (Binary64.of_int 0) 1e-9 0.001 = true
        /\ requests (trace (snd (@_sync_part
                                   (served_by (one_record (remote_record (VInt 0)) 200))
                                   live (widget (1 # 1000)) shop
                                   "stockitem.counted" fresh)))
           = [stock_item_request shop "WIDGET-1"]).
Proof.
  split.
  - split; [apply spec_equalb_iff; reflexivity|].
    split; vm_compute; reflexivity.
  - eexists. split; [vm_compute; reflexivity|].
    split; [vm_compute; reflexivity|].
    split; [apply spec_equalb_false; vm_compute; reflexivity|].
    split; vm_compute; reflexivity.
Qed.

(** C6, as the code has it. When [math.isclose], in binary64 arithmetic,
    finds the local and the remote quantity not close and [LOG_ONLY] is
    set, [_sync_part] ends after the fetch with one info record, "Would
    sync", that states the remote and the local quantity; the fetch is the
    only request of the attempt, and no write is sent. *)
Theorem log_only_sends_no_write {host : Host} (cfg : settings) (part : Part)
        (client : MagentoClient) (kind : string) (w w1 : world) (r : float) :
  name part <> "" ->
  LOG_ONLY cfg = true ->
  get_stock_qty client (name part) w = (Ok (Some r), w1) ->
  isclose (Binary64.of_decimal (total_stock part)) r 1e-9 0.001 = false ->
  let l := Binary64.of_decimal (total_stock part) in
  let final := _sync_part cfg part client kind w in
  final = (Ok tt, record (log_would_sync kind (name part) r l) w1)
  /\ writes (trace (snd final)) = writes (trace w)
  /\ requests (trace (snd final))
     = (requests (trace w) ++ [stock_item_request client (name part)])%list
  /\ exists msg,
      log_would_sync kind (name part) r l = Logged INFO msg
      /\ In (Lit "] Would sync SKU '") msg
      /\ mentions (name part) msg
      /\ In (Fmt (VFloat r)) msg /\ In (Fmt (VFloat l)) msg.
Proof.
  intros Hname Hlog Hfetch Hne l final. subst l final.
  rewrite (sync_part_eq cfg part client kind w Hname). cbv zeta. rewrite Hfetch.
  rewrite Hne, Hlog.
  destruct (get_stock_qty_requests client (name part) w) as (Hr & Hw & _).
  rewrite Hfetch in Hr, Hw. cbn [snd] in Hr, Hw.
  split; [reflexivity|]. cbn [snd record trace].
  rewrite writes_app, requests_app, Hr, Hw. cbn.
  rewrite !app_nil_r.
  split; [reflexivity|]. split; [reflexivity|].
  eexists. split; [reflexivity|]. unfold mentions. cbn. tauto.
Qed.

Lemma log_only_sends_no_write_witness :
  let h := served_by (one_record remote_50 200) in
  let final := @_sync_part h dry_run (widget (50002 # 1000)) shop
                           "stockitem.quantityupdated" fresh in
  writes (trace (snd final)) = []
  /\ requests (trace (snd final)) = [stock_item_request shop "WIDGET-1"].
Proof.
  intros h final.
  assert (Hfetch : @get_stock_qty h shop (name (widget (50002 # 1000))) fresh
                   = (Ok (Some 50%float), snd (@get_stock_qty h shop "WIDGET-1" fresh)))
    by (vm_compute; reflexivity).
  assert (Hne : isclose (Binary64.of_decimal (total_stock (widget (50002 # 1000)))) 50
                        1e-9 0.001 = false)
    by (vm_compute; reflexivity).
  destruct (@log_only_sends_no_write h dry_run (widget (50002 # 1000)) shop
              "stockitem.quantityupdated" fresh
              (snd (@get_stock_qty h shop "WIDGET-1" fresh)) 50
              ltac:(discriminate) eq_refl Hfetch Hne) as (_ & Hw & Hr & _).
  split; [exact Hw | exact Hr].
Defined.

(** C6, as stated, fails within rounding of the tolerance: with [LOG_ONLY]
    set, quantities that the tolerance of the specification keeps apart
    give no "Would sync" record, because the code finds them close: the
    attempt ends with the debug record "already in sync". Read on the
    quantities as they are written, this happens for 50 against
    50.0010000000000001; read on the binary64 numbers, for the number
    nearest to 0.001 against 0. *)
Lemma log_only_in_sync_within_rounding :
  (let remote := Binary64.of_decimal (500010000000000001 # 10000000000000000) in
   let h := served_by (one_record (remote_record (VFloat remote)) 200) in
   ~ spec_equal 50 (500010000000000001 # 10000000000000000)
   /\ trace (snd (@_sync_part h dry_run (widget 50) shop "stockitem.counted" fresh))
      = [Sent (stock_item_request shop "WIDGET-1");
         log_in_sync "stockitem.counted" "WIDGET-1" (Binary64.of_decimal 50)])
  /\ (let h := served_by (one_record (remote_record (VInt 0)) 200) in
      exists v,
        Binary64.exact (Binary64.of_decimal (1 # 1000)) = Some v
        /\ ~ spec_equal v 0
        /\ trace (snd (@_sync_part h dry_run (widget (1 # 1000)) shop "stockitem.counted"
                                   fresh))
           = [Sent (stock_item_request shop "WIDGET-1");
              log_in_sync "stockitem.counted" "WIDGET-1" (Binary64.of_decimal (1 # 1000))]).
Proof.
  split.
  - split; [apply spec_equalb_false; reflexivity|].
    vm_compute. reflexivity.
  - eexists. split; [vm_compute; reflexivity|].
    split; [apply spec_equalb_false; vm_compute; reflexivity|].
    vm_compute. reflexivity.
Qed.

(** ** The engine: errors of the client *)

Section Containment.
Context {host : Host}.

Lemma sync_part_no_client_error (cfg : settings) (part : Part)
      (client : MagentoClient) (kind : string) (w : world) (msg : fstring) :
  fst (_sync_part cfg part client kind w) <> Raise (MagentoClientError msg).
Proof.
  destruct (string_dec (name part) "") as [E | Hname].
  - unfold _sync_part. rewrite E. cbn. discriminate.
  - rewrite (sync_part_eq cfg part client kind w Hname). cbv zeta.
    destruct (get_stock_qty client (name part) w) as [[[m2_qty|] | e] w1].
    + destruct (isclose _ _ _ _); [discriminate|].
      destruct (LOG_ONLY cfg); [discriminate|].
      destruct (update_stock_qty client (name part) _ None w1)
        as [[[] | e] w2]; try discriminate.
      destruct e; discriminate.
    + discriminate.
    + destruct e; discriminate.
Qed.

Lemma magento_returns (cfg : settings) (w : world) :
  exists o w', magento cfg w = (Ok o, w').
Proof.
  unfold magento.
  destruct (negb (truthy (VStr (MAGENTO_URL cfg)))
            || negb (truthy (VStr (MAGENTO_TOKEN cfg)))).
  - eexists _, _. reflexivity.
  - unfold bind, get_self.
    destruct (is_None (_client w) || negb (_cached_url w =? MAGENTO_URL cfg)%string
              || negb (_cached_token w =? MAGENTO_TOKEN cfg)%string);
      eexists _, _; reflexivity.
Qed.

Lemma process_event_no_client_error (cfg : settings) (kind : string)
      (kwargs : list (string * value)) (w : world) (msg : fstring) :
  fst (process_event cfg kind kwargs w) <> Raise (MagentoClientError msg).
Proof.
  unfold process_event.
  destruct (SYNC_ENABLED cfg); cbn [negb]; [|discriminate].
  unfold bind at 1.
  destruct (magento_returns cfg w) as (o & w' & ->).
  destruct o as [client|]; [|discriminate].
  destruct (truthy (kwargs_get kwargs "id")); cbn [negb]; [|discriminate].
  destruct (kind =? "stock_stockitem.deleted")%string.
  - destruct (truthy (kwargs_get kwargs "part_id")); cbn [negb]; [|discriminate].
    unfold _sync_part_by_id.
    destruct part_models; cbn [negb]; [|discriminate].
    unfold bind, emit.
    destruct (Part_get _); [apply sync_part_no_client_error | discriminate].
  - unfold _sync_stock_item.
    destruct stock_models; cbn [negb]; [|discriminate].
    unfold bind, emit.
    destruct (StockItem_get _) as [[part|]|];
      [apply sync_part_no_client_error | discriminate | discriminate].
Qed.

End Containment.

(** C5. A [MagentoClientError] never leaves [_sync_part], nor therefore
    [process_event]: when the fetch raises one, and when the update raises
    one, [_sync_part] returns normally after one error record that carries
    the notification kind, the SKU and the text of the error. *)
Theorem client_errors_are_contained {host : Host} (cfg : settings) (part : Part)
        (client : MagentoClient) (kind : string) (w : world) :
  let sku := name part in
  (forall msg, fst (_sync_part cfg part client kind w) <> Raise (MagentoClientError msg))
  /\ (forall kwargs msg,
        fst (process_event cfg kind kwargs w) <> Raise (MagentoClientError msg))
  /\ (forall e w1,
        sku <> "" ->
        get_stock_qty client sku w = (Raise (MagentoClientError e), w1) ->
        _sync_part cfg part client kind w = (Ok tt, record (log_api_error kind sku e) w1))
  /\ (forall r w1 e w2,
        sku <> "" ->
        get_stock_qty client sku w = (Ok (Some r), w1) ->
        isclose (Binary64.of_decimal (total_stock part)) r 1e-9 0.001 = false ->
        LOG_ONLY cfg = false ->
        update_stock_qty client sku (NFloat (Binary64.of_decimal (total_stock part))) None w1
        = (Raise (MagentoClientError e), w2) ->
        _sync_part cfg part client kind w = (Ok tt, record (log_api_error kind sku e) w2))
  /\ (forall e, exists msg,
        log_api_error kind sku e = Logged ERROR msg
        /\ mentions kind msg /\ mentions sku msg).
Proof.
  intros sku. subst sku.
  split; [intros msg; apply sync_part_no_client_error|].
  split; [intros kwargs msg; apply process_event_no_client_error|].
  split; [|split].
  - intros e w1 Hname Hfetch.
    rewrite (sync_part_eq cfg part client kind w Hname). cbv zeta.
    now rewrite Hfetch.
  - intros r w1 e w2 Hname Hfetch Hne Hlog Hupd.
    rewrite (sync_part_eq cfg part client kind w Hname). cbv zeta.
    now rewrite Hfetch, Hne, Hlog, Hupd.
  - intros e. eexists. split; [reflexivity|]. unfold mentions. cbn. tauto.
Qed.

Lemma client_errors_are_contained_witness :
  let h := served_by (always server_error) in
  exists e,
    @_sync_part h live (widget 42) shop "stockitem.quantityupdated" fresh
    = (Ok tt,
       record (log_api_error "stockitem.quantityupdated" "WIDGET-1" e)
              (snd (@get_stock_qty h shop "WIDGET-1" fresh))).
Proof.
  intros h. eexists.
  refine (proj1 (proj2 (proj2 (@client_errors_are_contained h live (widget 42) shop
                                 "stockitem.quantityupdated" fresh))) _ _ _ _).
  - discriminate.
  - reflexivity.
Defined.

(** ** The engine: the client it holds *)

Section Lifecycle.
Context {host : Host}.

Lemma configured (url tok : string) :
  url <> "" -> tok <> "" ->
  negb (truthy (VStr url)) || negb (truthy (VStr tok)) = false.
Proof.
  intros Hu Ht. now rewrite (truthy_name _ Hu), (truthy_name _ Ht).
Qed.

(** The property [magento] under complete settings. *)
Lemma magento_eq (cfg : settings) (w : world) :
  MAGENTO_URL cfg <> "" -> MAGENTO_TOKEN cfg <> "" ->
  magento cfg w =
  let url := MAGENTO_URL cfg in
  let tok := MAGENTO_TOKEN cfg in
  if is_None (_client w)
     || negb (String.eqb (_cached_url w) url)
     || negb (String.eqb (_cached_token w) tok)
  then
    (Ok (Some (built url tok w)),
     {| trace := trace w;
        _client := Some (built url tok w);
        _cached_url := url;
        _cached_token := tok;
        next_obj_id := S (next_obj_id w) |})
  else (Ok (_client w), w).
Proof.
  intros Hu Ht. unfold magento. rewrite (configured _ _ Hu Ht).
  unfold bind, get_self. cbv zeta.
  destruct (is_None (_client w) || negb (_cached_url w =? MAGENTO_URL cfg)%string
            || negb (_cached_token w =? MAGENTO_TOKEN cfg)%string); reflexivity.
Qed.

Lemma changed_iff (cfg : settings) (w : world) :
  is_None (_client w)
  || negb (String.eqb (_cached_url w) (MAGENTO_URL cfg))
  || negb (String.eqb (_cached_token w) (MAGENTO_TOKEN cfg)) = true
  <-> _client w = None \/ _cached_url w <> MAGENTO_URL cfg
      \/ _cached_token w <> MAGENTO_TOKEN cfg.
Proof.
  rewrite !orb_true_iff, !negb_true_iff, !String.eqb_neq.
  destruct (_client w); cbn; intuition congruence.
Qed.

End Lifecycle.

(** C7. The plugin holds one client at most, in [_client], together with
    the URL and the token it was built with. On each use of [magento] with
    complete settings: when there is no client, or the URL or the token
    differs from the cached one, a new instance is built from the current
    settings, stored and returned; when both are equal to the cached ones,
    the held instance is returned and nothing changes. With incomplete
    settings no client is built. Only the values of the settings are
    compared. *)
Theorem magento_client_lifecycle (cfg : settings) (w : world) :
  let url := MAGENTO_URL cfg in
  let tok := MAGENTO_TOKEN cfg in
  let res := magento cfg w in
  consistent w ->
  consistent (snd res)
  /\ (url = "" \/ tok = "" ->
      fst res = Ok None /\ _client (snd res) = _client w
      /\ _cached_url (snd res) = _cached_url w
      /\ _cached_token (snd res) = _cached_token w)
  /\ (url <> "" -> tok <> "" ->
      (_client w = None \/ _cached_url w <> url \/ _cached_token w <> tok) ->
      let c := built url tok w in
      fst res = Ok (Some c)
      /\ _client (snd res) = Some c
      /\ _cached_url (snd res) = url
      /\ _cached_token (snd res) = tok
      /\ trace (snd res) = trace w
      /\ (forall old, _client w = Some old -> obj_id c <> obj_id old))
  /\ (url <> "" -> tok <> "" ->
      forall c, _client w = Some c -> _cached_url w = url -> _cached_token w = tok ->
                res = (Ok (Some c), w)).
Proof.
  intros url tok res Hc. subst url tok res.
  split; [|split; [|split]].
  - (* the invariant *)
    destruct (string_dec (MAGENTO_URL cfg) "") as [Eu | Hu];
      [unfold magento; rewrite Eu; exact Hc|].
    destruct (string_dec (MAGENTO_TOKEN cfg) "") as [Et | Ht];
      [unfold magento; rewrite Et, orb_true_r; exact Hc|].
    rewrite (magento_eq cfg w Hu Ht). cbv zeta.
    destruct (is_None (_client w) || _ || _); [|exact Hc].
    unfold consistent, built. cbn. auto.
  - intros [E | E]; unfold magento; rewrite E, ?orb_true_r; cbn; auto.
  - intros Hu Ht Hch. rewrite (magento_eq cfg w Hu Ht). cbv zeta.
    rewrite (proj2 (changed_iff cfg w) Hch). cbn.
    repeat split.
    intros old Hold. unfold consistent in Hc. rewrite Hold in Hc.
    destruct Hc as (_ & _ & Hlt). lia.
  - intros Hu Ht c Hcl Eu Et. rewrite (magento_eq cfg w Hu Ht). cbv zeta.
    rewrite Hcl, Eu, Et, !String.eqb_refl. reflexivity.
Qed.

(** Two uses in a row with the settings of the scenario: the first builds
    the client, the second returns the same instance. *)
Lemma magento_client_lifecycle_witness :
  let first := magento live fresh in
  fst first = Ok (Some (built "https://shop.example.com" "test_token_123" fresh))
  /\ magento live (snd first) = (fst first, snd first).
Proof.
  intros first.
  assert (Hfresh : consistent fresh) by exact I.
  destruct (magento_client_lifecycle live fresh Hfresh) as (Hc1 & _ & Hnew & _).
  specialize (Hnew ltac:(discriminate) ltac:(discriminate) (or_introl eq_refl)).
  destruct Hnew as (Hres & _).
  split; [exact Hres|].
  destruct (magento_client_lifecycle live (snd first) Hc1) as (_ & _ & _ & Hsame).
  rewrite (Hsame ltac:(discriminate) ltac:(discriminate)
                 (built "https://shop.example.com" "test_token_123" fresh)
                 eq_refl eq_refl eq_refl).
  reflexivity.
Defined.

(** ** The engine: a notification without a usable [id] *)

(** C10. With sync enabled and complete settings, a notification whose
    [id] is missing or falsy ([None], 0, the empty string) is dropped by
    [process_event] after one debug record: nothing is raised, no part is
    looked up and no request is sent, whatever the kind of the notification,
    deletion included. *)
Theorem process_event_without_id {host : Host} (cfg : settings) (kind : string)
        (kwargs : list (string * value)) (w : world) :
  SYNC_ENABLED cfg = true ->
  MAGENTO_URL cfg <> "" ->
  MAGENTO_TOKEN cfg <> "" ->
  (assoc "id" kwargs = None
   \/ exists v, assoc "id" kwargs = Some v /\ truthy v = false) ->
  let final := process_event cfg kind kwargs w in
  fst final = Ok tt
  /\ trace (snd final)
     = (trace w ++ [Logged DEBUG (lit "Event " ++ lit kind ++ lit " has no 'id' in kwargs")])%list
  /\ requests (trace (snd final)) = requests (trace w)
  /\ queries (trace (snd final)) = queries (trace w)
  /\ truthy VNone = false /\ truthy (VInt 0) = false /\ truthy (VStr "") = false.
Proof.
  intros Hen Hu Ht Hid final. subst final.
  assert (Hfalsy : truthy (kwargs_get kwargs "id") = false).
  { unfold kwargs_get. destruct Hid as [-> | (v & -> & Hv)]; [reflexivity | exact Hv]. }
  unfold process_event. rewrite Hen, Hfalsy. cbn [negb].
  unfold bind. rewrite (magento_eq cfg w Hu Ht). cbv zeta.
  destruct (is_None (_client w)) eqn:Hnone; cbn [orb];
    [|destruct (negb (_cached_url w =? MAGENTO_URL cfg)%string
               || negb (_cached_token w =? MAGENTO_TOKEN cfg)%string);
      [|destruct (_client w) as [c|]; [|discriminate Hnone]]];
    cbn; rewrite requests_app, queries_app; cbn; rewrite !app_nil_r;
    repeat split.
Qed.

(** A deletion whose [id] is 0: dropped, although a [part_id] is given. *)
Lemma process_event_without_id_witness :
  let h := served_by (one_record remote_50 200) in
  let final := @process_event h live "stock_stockitem.deleted"
                              [("id", VInt 0); ("part_id", VInt 7)] fresh in
  fst final = Ok tt
  /\ requests (trace (snd final)) = []
  /\ queries (trace (snd final)) = [].
Proof.
  intros h final.
  destruct (@process_event_without_id h live "stock_stockitem.deleted"
              [("id", VInt 0); ("part_id", VInt 7)] fresh
              eq_refl ltac:(discriminate) ltac:(discriminate)
              (or_intror (ex_intro _ (VInt 0) (conj eq_refl eq_refl))))
    as (A & _ & B & C & _).
  split; [exact A | split; [exact B | exact C]].
Defined.

(** * Further properties of the code *)

(** ** The path segment of a SKU *)

Section Segment.
Import Quote.

Lemma percent_decodes (c : ascii) (r : string) :
  decode_segment (percent c ++ r) = String c (decode_segment r).
Proof.
  unfold percent. cbn [append decode_segment]. rewrite Ascii.eqb_refl.
  f_equal. destruct c as [[] [] [] [] [] [] [] []]; reflexivity.
Qed.

Lemma safe_not_percent (c : ascii) : always_safe c = true -> Ascii.eqb c "%" = false.
Proof.
  intros H. destruct (Ascii.eqb c "%") eqn:E; [|reflexivity].
  apply Ascii.eqb_eq in E. subst c. discriminate H.
Qed.

Lemma length_append (a b : string) :
  String.length (a ++ b) = (String.length a + String.length b)%nat.
Proof. induction a as [|c a IH]; cbn; [reflexivity | now rewrite IH]. Qed.

Lemma quote_byte_length (c : ascii) :
  (1 <= String.length (quote_byte "" c) <= 3)%nat.
Proof.
  unfold quote_byte, percent. destruct (always_safe c || mem c ""); cbn; lia.
Qed.

Lemma py_len_append (a b : string) : py_len (a ++ b) = (py_len a + py_len b)%nat.
Proof. induction a as [|c a IH]; cbn; [reflexivity | rewrite IH; lia]. Qed.

Lemma py_len_le (s : string) : (py_len s <= String.length s)%nat.
Proof.
  induction s as [|c s IH]; cbn; [lia|]. destruct (starts_char c); lia.
Qed.

Lemma py_len_isascii (s : string) : isascii s = true -> py_len s = String.length s.
Proof.
  induction s as [|c s IH]; cbn; [reflexivity|].
  intros H. apply andb_true_iff in H. destruct H as [Hc Hs].
  rewrite (IH Hs). unfold starts_char, between.
  apply N.ltb_lt in Hc. apply N.leb_gt in Hc. now rewrite Hc.
Qed.

(** What [quote] puts out is ASCII. *)
Lemma quote_byte_isascii (c : ascii) : isascii (quote_byte "" c) = true.
Proof. destruct c as [[] [] [] [] [] [] [] []]; reflexivity. Qed.

Lemma isascii_append (a b : string) :
  isascii a = true -> isascii b = true -> isascii (a ++ b) = true.
Proof.
  induction a as [|c a IH]; cbn; [auto|].
  intros H Hb. apply andb_true_iff in H. destruct H as [Hc Ha].
  now rewrite Hc, IH.
Qed.

Lemma quote_isascii (s : string) : isascii (quote s "") = true.
Proof.
  induction s as [|c s IH]; cbn [quote]; [reflexivity|].
  apply isascii_append; [apply quote_byte_isascii | exact IH].
Qed.

Lemma quote_length (s : string) :
  (String.length s <= String.length (quote s "") <= 3 * String.length s)%nat.
Proof.
  induction s as [|c s IH]; cbn [quote String.length].
  - lia.
  - rewrite length_append. pose proof (quote_byte_length c). lia.
Qed.

End Segment.

(** X1. The encoding of a SKU loses nothing: decoding the escapes of
    [_encode_sku sku] gives the SKU back, so that two different SKUs never
    share a path segment. *)
Theorem encode_sku_round_trip :
  (forall sku, decode_segment (_encode_sku sku) = sku)
  /\ (forall a b, _encode_sku a = _encode_sku b -> a = b).
Proof.
  assert (Hrt : forall sku, decode_segment (_encode_sku sku) = sku).
  { unfold _encode_sku. induction sku as [|c sku IH]; [reflexivity|].
    cbn [Quote.quote]. unfold Quote.quote_byte. cbn [Quote.mem]. rewrite orb_false_r.
    destruct (Quote.always_safe c) eqn:E.
    - cbn [append decode_segment]. rewrite (safe_not_percent c E). now rewrite IH.
    - rewrite percent_decodes. now rewrite IH. }
  split; [exact Hrt|].
  intros a b H. rewrite <- (Hrt a), <- (Hrt b). now rewrite H.
Qed.

(** X2. The length of an encoded SKU, where a SKU is the string of its
    UTF-8 bytes. The encoded SKU is made of ASCII characters: at least as
    many as the SKU has bytes, and at most three times as many. Counted in
    characters, as [len] does, a SKU is never longer than its encoding, and
    the encoding of a SKU of ASCII characters is at most three times as
    long as the SKU; this bound fails for other SKUs: the single character
    U+00E9, two bytes, becomes the six characters [%C3%A9]. *)
Theorem encode_sku_length (sku : string) :
  (String.length sku <= String.length (_encode_sku sku) <= 3 * String.length sku)%nat
  /\ isascii (_encode_sku sku) = true
  /\ py_len (_encode_sku sku) = String.length (_encode_sku sku)
  /\ (py_len sku <= py_len (_encode_sku sku))%nat
  /\ (isascii sku = true -> (py_len (_encode_sku sku) <= 3 * py_len sku)%nat)
  /\ py_len e_acute = 1%nat
  /\ _encode_sku e_acute = "%C3%A9"
  /\ py_len (_encode_sku e_acute) = 6%nat.
Proof.
  unfold _encode_sku.
  pose proof (quote_length sku) as Hlen.
  pose proof (py_len_isascii _ (quote_isascii sku)) as Hascii.
  split; [exact Hlen|].
  split; [apply quote_isascii|].
  split; [exact Hascii|].
  split; [rewrite Hascii; pose proof (py_len_le sku); lia|].
  split; [intros H; rewrite Hascii, (py_len_isascii sku H); lia|].
  repeat split.
Qed.

Lemma encode_sku_length_witness :
  (py_len (_encode_sku "sku with spaces") <= 3 * py_len "sku with spaces")%nat.
Proof.
  apply (proj1 (proj2 (proj2 (proj2 (proj2 (encode_sku_length "sku with spaces")))))).
  reflexivity.
Defined.

Lemma encode_sku_round_trip_witness : "sku/with/slashes" = "sku/with/slashes".
Proof.
  apply (proj2 encode_sku_round_trip "sku/with/slashes" "sku/with/slashes").
  reflexivity.
Defined.

(** ** The base URL of a client *)

Section BaseUrl.

Lemma rstrip_slash_cons (c : ascii) (s : string) :
  rstrip_slash (String c s)
  = match rstrip_slash s with
    | EmptyString => if Ascii.eqb c "/" then EmptyString else String c EmptyString
    | r => String c r
    end.
Proof. reflexivity. Qed.

Lemma rstrip_slash_rest (s : string) :
  exists n, s = rstrip_slash s ++ slashes n.
Proof.
  induction s as [|c s [n IH]]; [exists O; reflexivity|].
  rewrite rstrip_slash_cons.
  destruct (rstrip_slash s) as [|d r] eqn:E.
  - destruct (Ascii.eqb c "/") eqn:Ec.
    + apply Ascii.eqb_eq in Ec. subst c. exists (S n). cbn. now rewrite IH at 1.
    + exists n. cbn. now rewrite IH at 1.
  - exists n. cbn. now rewrite IH at 1.
Qed.

Lemma rstrip_slash_end (s t : string) : rstrip_slash s <> t ++ "/".
Proof.
  revert t. induction s as [|c s IH]; intros t.
  - destruct t; discriminate.
  - rewrite rstrip_slash_cons.
    destruct (rstrip_slash s) as [|d r] eqn:E.
    + destruct (Ascii.eqb c "/") eqn:Ec.
      * destruct t; discriminate.
      * destruct t as [|x [|y t]]; cbn; try discriminate.
        intros [= ->]. discriminate Ec.
    + destruct t as [|x t]; cbn; [intros [= _ H]; discriminate H|].
      intros [= _ H]. exact (IH t H).
Qed.

Lemma append_empty (s : string) : s ++ "" = s.
Proof. induction s as [|c s IH]; cbn; [reflexivity | now rewrite IH]. Qed.

Lemma append_slashes_S (s : string) (n : nat) :
  s ++ slashes (S n) = (s ++ slashes n) ++ "/".
Proof.
  induction s as [|c s IH].
  - cbn [append]. induction n as [|n IHn]; [reflexivity|].
    cbn [slashes append] in *. now rewrite IHn.
  - cbn [append]. now rewrite IH.
Qed.

End BaseUrl.

(** X3. [MagentoClient.__init__] keeps the URL without its trailing slashes:
    the base URL of the new client never ends with a slash, the given URL is
    the base URL followed by slashes only, and a URL that does not end with
    a slash is kept as it is; the token is kept unchanged. *)
Theorem client_base_url_stripped (url tok : string) (w : world) :
  exists c w',
    MagentoClient_init url tok w = (Ok c, w')
    /\ token c = tok
    /\ (forall t, base_url c <> t ++ "/")
    /\ (exists n, url = base_url c ++ slashes n)
    /\ ((forall t, url <> t ++ "/") -> base_url c = url).
Proof.
  eexists _, _. split; [reflexivity|]. cbn.
  split; [reflexivity|]. split; [apply rstrip_slash_end|].
  split; [apply rstrip_slash_rest|].
  intros Hno. destruct (rstrip_slash_rest url) as [[|n] Hn].
  - cbn [slashes] in Hn. rewrite append_empty in Hn. now symmetry.
  - exfalso. apply (Hno (rstrip_slash url ++ slashes n)).
    now rewrite <- append_slashes_S.
Qed.

Lemma client_base_url_stripped_witness :
  exists c w',
    MagentoClient_init "https://shop.example.com" "test_token_123" fresh = (Ok c, w')
    /\ base_url c = "https://shop.example.com".
Proof.
  destruct (client_base_url_stripped "https://shop.example.com" "test_token_123" fresh)
    as (c & w' & Hinit & _ & _ & _ & Hkeep).
  exists c, w'. split; [exact Hinit|].
  apply Hkeep. intros t Ht.
  assert (Hlast : forall a b : string,
             a = b ++ "/" -> String.get (String.length a - 1) a = Some "/"%char).
  { intros a b ->. clear. induction b as [|x b IH]; [reflexivity|].
    cbn [append String.length]. rewrite length_append in *. cbn [String.length] in *.
    replace (S (String.length b + 1) - 1)%nat with (S (String.length b + 1 - 1))%nat by lia.
    cbn [String.get]. exact IH. }
  apply Hlast in Ht. discriminate Ht.
Defined.

(** ** The liveness probe *)

Section Probe.
Context {host : Host}.
Variable timeout_text : fstring.

(** [test_connection], case by case on what the session answers. *)
Lemma test_connection_eq (self : MagentoClient) (w : world) :
  test_connection timeout_text self w =
  let req := store_configs_request self in
  let w1 := record (Sent req) w in
  match transport (trace w) req with
  | Responded resp =>
      match http_error_msg (req_url req) resp with
      | [] => (Ok true,
               record (Logged INFO (lit "Magento API connection test successful")) w1)
      | msg => (Ok false,
                record (Logged ERROR (lit "Magento API connection test failed: " ++ msg))
                       w1)
      end
  | TimedOut =>
      (Ok false,
       record (Logged ERROR (lit "Magento API connection test failed: " ++ timeout_text))
              w1)
  | Failed e =>
      (Ok false,
       record (Logged ERROR (lit "Magento API connection test failed: " ++ lit e)) w1)
  end.
Proof.
  unfold test_connection, try_except, bind, session_get, session_request.
  fold (store_configs_request self).
  destruct (transport (trace w) (store_configs_request self)) as [resp | | e];
    cbn; try reflexivity.
  unfold raise_for_status.
  destruct (http_error_msg _ resp); reflexivity.
Qed.

End Probe.

(** X4. [test_connection] never raises. It sends one [GET] for
    [/store/storeConfigs] and nothing else, writes one log record, and
    answers [True] exactly when that request got a response whose status is
    outside 400..599; a 4xx or 5xx status, a timeout and any other failure
    of the transport give [False]. *)
Theorem test_connection_never_raises {host : Host} (timeout_text : fstring)
        (self : MagentoClient) (w : world) :
  let res := test_connection timeout_text self w in
  let req := store_configs_request self in
  (exists b, fst res = Ok b)
  /\ (fst res = Ok true <->
      exists resp, transport (trace w) req = Responded resp
                   /\ ~ error_status (status_code resp))
  /\ (exists lvl msg,
        trace (snd res) = (trace w ++ [Sent req; Logged lvl msg])%list
        /\ (lvl = INFO <-> fst res = Ok true)
        /\ (lvl = ERROR <-> fst res = Ok false))
  /\ requests (trace (snd res)) = (requests (trace w) ++ [req])%list
  /\ writes (trace (snd res)) = writes (trace w).
Proof.
  intros res req. subst res req.
  rewrite test_connection_eq. cbv zeta.
  destruct (transport (trace w) (store_configs_request self)) as [resp | | e] eqn:Ht;
    [destruct (http_error_msg (req_url (store_configs_request self)) resp) eqn:Hm|..];
    (split; [eexists; reflexivity|]);
    (split; [|split;
       [eexists _, _; cbn; rewrite <- ?app_assoc; cbn;
        split; [reflexivity|];
        split; split; intros H; try reflexivity; discriminate H
       |cbn; rewrite ?requests_app, ?writes_app; cbn;
        rewrite ?app_nil_r, <- ?app_assoc; auto]]).
  - apply http_error_msg_nil in Hm.
    split; [intros _; exists resp; auto | reflexivity].
  - assert (Herr : error_status (status_code resp)).
    { destruct (error_status_dec (status_code resp)) as [H | H]; [exact H|].
      apply (http_error_msg_nil (req_url (store_configs_request self))) in H.
      rewrite H in Hm. discriminate Hm. }
    split; [discriminate | intros (resp' & [= <-] & H); contradiction].
  - split; [discriminate | intros (resp' & H & _); discriminate H].
  - split; [discriminate | intros (resp' & H & _); discriminate H].
Qed.

(** The probe of the tests: 401 gives [False]. *)
Lemma test_connection_never_raises_witness :
  let h := served_by (always {| status_code := 401; reason := "Unauthorized";
                                body := Json (VDict [("message", VStr "Unauthorized")]) |}) in
  fst (@test_connection h [] shop fresh) <> Ok true.
Proof.
  intros h Htrue.
  apply (proj1 (proj1 (proj2 (@test_connection_never_raises h [] shop fresh)))) in Htrue.
  destruct Htrue as (resp & [= <-] & Hs).
  apply Hs. unfold error_status. cbn. lia.
Defined.

(** ** What a fetch leaves behind *)

(** X5. [get_stock_item] sends exactly one request, the [GET] of the
    record. It gives [None] exactly when the answer is a 404 response or a
    response outside 400..599 whose body is the JSON [null]. An exception
    comes with exactly one error record, which names the SKU; a record that
    is returned comes with no log record at all. The attributes of the
    plugin are left alone. *)
Theorem get_stock_item_effects {host : Host} (self : MagentoClient) (sku : string)
        (w : world) :
  let res := get_stock_item self sku w in
  let req := stock_item_request self sku in
  requests (trace (snd res)) = (requests (trace w) ++ [req])%list
  /\ (fst res = Ok VNone <->
      exists resp, transport (trace w) req = Responded resp
                   /\ (status_code resp = 404%Z
                       \/ (~ error_status (status_code resp) /\ body resp = Json VNone)))
  /\ (forall e, fst res = Raise e ->
                exists msg, trace (snd res) = (trace w ++ [Sent req; Logged ERROR msg])%list
                            /\ mentions sku msg)
  /\ (forall v, fst res = Ok v -> v <> VNone ->
                trace (snd res) = (trace w ++ [Sent req])%list)
  /\ _client (snd res) = _client w
  /\ _cached_url (snd res) = _cached_url w
  /\ _cached_token (snd res) = _cached_token w
  /\ next_obj_id (snd res) = next_obj_id w.
Proof.
  intros res req. subst res req.
  split.
  { destruct (get_stock_item_trace self sku w) as (logs & -> & Hr & _).
    rewrite requests_app. cbn. now rewrite Hr. }
  rewrite get_stock_item_eq. cbv zeta.
  set (req := stock_item_request self sku).
  destruct (transport (trace w) req) as [resp | | e0] eqn:Ht.
  - destruct (status_code resp =? 404)%Z eqn:E404.
    + apply Z.eqb_eq in E404.
      split; [split; [intros _; exists resp; auto | reflexivity]|].
      split; [discriminate|].
      split; [intros v [= <-] Hv; now elim Hv|].
      cbn. auto.
    + apply Z.eqb_neq in E404.
      destruct (http_error_msg (req_url req) resp) eqn:Hm.
      * apply http_error_msg_nil in Hm.
        destruct (body resp) as [v | err] eqn:Hb.
        -- split.
           { split.
             - intros [= ->]. exists resp. auto.
             - intros (resp' & [= <-] & [H | [_ H]]); [contradiction|].
               rewrite Hb in H. now injection H as ->. }
           split; [discriminate|].
           split; [intros v' _ _; reflexivity|].
           cbn. auto.
        -- split.
           { split; [discriminate|].
             intros (resp' & [= <-] & [H | [_ H]]); [contradiction|].
             rewrite Hb in H. discriminate H. }
           split.
           { intros e [= <-]. eexists. cbn. rewrite <- app_assoc. cbn.
             split; [reflexivity|]. unfold mentions. cbn. auto. }
           split; [discriminate|].
           cbn. auto.
      * assert (Herr : error_status (status_code resp)).
        { destruct (error_status_dec (status_code resp)) as [H | H]; [exact H|].
          apply (http_error_msg_nil (req_url req)) in H.
          rewrite H in Hm. discriminate Hm. }
        split.
        { split; [discriminate|].
          intros (resp' & [= <-] & [H | [H _]]); contradiction. }
        split.
        { intros e [= <-]. eexists. cbn. rewrite <- app_assoc. cbn.
          split; [reflexivity|]. unfold mentions. cbn. auto. }
        split; [discriminate|].
        cbn. auto.
  - split; [split; [discriminate | intros (resp' & H & _); discriminate H]|].
    split.
    { intros e [= <-]. eexists. cbn. rewrite <- app_assoc. cbn.
      split; [reflexivity|]. unfold mentions. cbn. auto. }
    split; [discriminate|].
    cbn. auto.
  - split; [split; [discriminate | intros (resp' & H & _); discriminate H]|].
    split.
    { intros e [= <-]. eexists. cbn. rewrite <- app_assoc. cbn.
      split; [reflexivity|]. unfold mentions. cbn. auto. }
    split; [discriminate|].
    cbn. auto.
Qed.

(** A 200 response whose body is [null]: reported as absent. *)
Lemma get_stock_item_effects_witness :
  let h := served_by (always {| status_code := 200; reason := "OK"; body := Json VNone |}) in
  fst (@get_stock_item h shop "TEST-SKU" fresh) = Ok VNone.
Proof.
  intros h.
  apply (proj2 (proj1 (proj2 (@get_stock_item_effects h shop "TEST-SKU" fresh)))).
  eexists. split; [reflexivity|]. right. split; [|reflexivity].
  unfold error_status. cbn. lia.
Defined.

(** ** The remote quantity *)

(** X6. [get_stock_qty] gives [None] exactly when [get_stock_item] does. A
    float found under [qty] is returned as it is. An integer is converted
    to the binary64 number nearest to it, so that 9007199254740993 comes
    back as 9007199254740992.0, and raises [OverflowError] when it lies
    beyond the range of binary64, as 2^1024 does. [true] and [false] count
    as 1.0 and 0.0; an exception of the fetch is passed on unchanged. *)
Theorem get_stock_qty_reads_quantity {host : Host} (self : MagentoClient)
        (sku : string) (w : world) :
  let item := fst (get_stock_item self sku w) in
  let res := fst (get_stock_qty self sku w) in
  (res = Ok None <-> item = Ok VNone)
  /\ (forall d f, item = Ok (VDict d) -> assoc "qty" d = Some (VFloat f) ->
                  res = Ok (Some f))
  /\ (forall d z, item = Ok (VDict d) -> assoc "qty" d = Some (VInt z) ->
                  res = if is_infinity (Binary64.of_int z) then Raise OverflowError
                        else Ok (Some (Binary64.of_int z)))
  /\ Binary64.of_int 9007199254740993 = 9007199254740992%float
  /\ is_infinity (Binary64.of_int (2 ^ 1024)) = true
  /\ (forall d b, item = Ok (VDict d) -> assoc "qty" d = Some (VBool b) ->
                  res = Ok (Some (if b then 1%float else 0%float)))
  /\ (forall e, item = Raise e -> res = Raise e).
Proof.
  intros item res. subst item res.
  unfold get_stock_qty, bind.
  destruct (get_stock_item self sku w) as [[v | e] w1]; cbn [fst].
  - split.
    + destruct v as [| b | z | f | s | l | d]; cbn;
        try (split; [discriminate | intros [= ]]; fail);
        [split; reflexivity|].
      split; [|intros [= ]].
      destruct (assoc "qty" d) as [x|]; [|discriminate].
      destruct x as [| b | z | f | s | l | d']; cbn; try discriminate.
      * destruct (abs (Binary64.of_int z) =? infinity)%float; discriminate.
      * destruct (float_of_str s); discriminate.
    + split; [|split; [|split; [|split; [|split]]]].
      * intros d f [= ->] Hq. cbn. now rewrite Hq.
      * intros d z [= ->] Hq. cbn. rewrite Hq. cbn.
        destruct (abs (Binary64.of_int z) =? infinity)%float; reflexivity.
      * vm_compute. reflexivity.
      * vm_compute. reflexivity.
      * intros d b [= ->] Hq. cbn. now rewrite Hq.
      * discriminate.
  - split; [split; discriminate|].
    split; [discriminate|]. split; [discriminate|].
    split; [vm_compute; reflexivity|]. split; [vm_compute; reflexivity|].
    split; [discriminate|].
    intros e' [= <-]. reflexivity.
Qed.

(** The record of the tests, whose quantity is 75.5. *)
Lemma get_stock_qty_reads_quantity_witness :
  let record := VDict [("item_id", VInt 123); ("qty", VFloat 75.5);
                       ("is_in_stock", VBool true)] in
  fst (@get_stock_qty (served_by (one_record record 200)) shop "TEST-SKU" fresh)
  = Ok (Some 75.5%float).
Proof.
  intros record.
  apply (proj1 (proj2 (@get_stock_qty_reads_quantity
                         (served_by (one_record record 200)) shop "TEST-SKU" fresh))
               [("item_id", VInt 123); ("qty", VFloat 75.5);
                ("is_in_stock", VBool true)]).
  - reflexivity.
  - reflexivity.
Defined.

(** X7. A record that is not well formed stops the attempt with an
    exception that [_sync_part] does not catch: when the fetch is answered,
    with a status outside 400..599, by a JSON object whose [qty] is [null],
    [_sync_part] raises [TypeError]; when the body is a JSON array, it raises
    [AttributeError]. In both cases the fetch is the only thing that
    happened: no log record is written and nothing is sent. *)
Theorem malformed_record_escapes {host : Host} (cfg : settings) (part : Part)
        (client : MagentoClient) (kind : string) (w : world) (resp : response) :
  name part <> "" ->
  transport (trace w) (stock_item_request client (name part)) = Responded resp ->
  ~ error_status (status_code resp) ->
  let after_fetch := record (Sent (stock_item_request client (name part))) w in
  (forall d, body resp = Json (VDict d) -> assoc "qty" d = Some VNone ->
             _sync_part cfg part client kind w = (Raise TypeError, after_fetch))
  /\ (forall l, body resp = Json (VList l) ->
                _sync_part cfg part client kind w = (Raise AttributeError, after_fetch)).
Proof.
  intros Hname Ht Hs after_fetch. subst after_fetch.
  assert (Hn : (status_code resp =? 404)%Z = false)
    by (apply Z.eqb_neq; unfold error_status in Hs; lia).
  assert (Hitem : forall v, body resp = Json v ->
            get_stock_item client (name part) w
            = (Ok v, record (Sent (stock_item_request client (name part))) w)).
  { intros v Hb. rewrite get_stock_item_eq. cbv zeta.
    now rewrite Ht, Hn, (proj2 (http_error_msg_nil _ resp) Hs), Hb. }
  split.
  - intros d Hb Hq. rewrite (sync_part_eq cfg part client kind w Hname). cbv zeta.
    unfold get_stock_qty, bind. rewrite (Hitem _ Hb). cbn. now rewrite Hq.
  - intros l Hb. rewrite (sync_part_eq cfg part client kind w Hname). cbv zeta.
    unfold get_stock_qty, bind. now rewrite (Hitem _ Hb).
Qed.

Lemma malformed_record_escapes_witness :
  let resp := {| status_code := 200; reason := "OK";
                 body := Json (VDict [("item_id", VInt 9); ("qty", VNone)]) |} in
  @_sync_part (served_by (always resp)) live (widget 42) shop "stockitem.counted" fresh
  = (Raise TypeError, record (Sent (stock_item_request shop "WIDGET-1")) fresh).
Proof.
  intros resp.
  refine (proj1 (@malformed_record_escapes (served_by (always resp)) live (widget 42) shop
                   "stockitem.counted" fresh resp _ _ _)
                [("item_id", VInt 9); ("qty", VNone)] _ _).
  - discriminate.
  - reflexivity.
  - unfold error_status. cbn. lia.
  - reflexivity.
  - reflexivity.
Defined.

(** ** Errors and requests of an update *)

Section UpdateShape.
Context {host : Host}.

Lemma get_stock_item_raises (self : MagentoClient) (sku : string) (w : world) (e : exn) :
  fst (get_stock_item self sku w) = Raise e ->
  exists msg, e = MagentoClientError msg /\ mentions sku msg.
Proof.
  rewrite get_stock_item_eq. cbv zeta.
  destruct (transport (trace w) (stock_item_request self sku)) as [resp | | e0].
  - destruct (status_code resp =? 404)%Z; [discriminate|].
    destruct (http_error_msg _ resp).
    + destruct (body resp); [discriminate|].
      cbn. intros [= <-]. eexists; split; [reflexivity|]. unfold mentions. cbn. auto.
    + cbn. intros [= <-]. eexists; split; [reflexivity|]. unfold mentions. cbn. auto.
  - cbn. intros [= <-]. eexists; split; [reflexivity|]. unfold mentions. cbn. auto.
  - cbn. intros [= <-]. eexists; split; [reflexivity|]. unfold mentions. cbn. auto.
Qed.

Lemma get_stock_item_requests (self : MagentoClient) (sku : string) (w : world) :
  requests (trace (snd (get_stock_item self sku w)))
  = (requests (trace w) ++ [stock_item_request self sku])%list
  /\ queries (trace (snd (get_stock_item self sku w))) = queries (trace w).
Proof.
  destruct (get_stock_item_trace self sku w) as (logs & -> & Hr & Hq).
  rewrite requests_app, queries_app. cbn. now rewrite Hr, Hq, app_nil_r.
Qed.

(** The requests of an update: its fetch, and then one write at most. *)
Lemma update_stock_qty_shape (self : MagentoClient) (sku : string) (qty : number)
      (o : option bool) (w : world) :
  let final := snd (update_stock_qty self sku qty o w) in
  exists rest,
    requests (trace final)
    = (requests (trace w) ++ stock_item_request self sku :: rest)%list
    /\ writes (trace final) = (writes (trace w) ++ rest)%list
    /\ queries (trace final) = queries (trace w)
    /\ (rest = []
        \/ exists d, fst (get_stock_item self sku w) = Ok (VDict d)
                     /\ truthy (item_id_of d) = true
                     /\ rest = [stock_item_write self sku (item_id_of d) qty o]).
Proof.
  cbv zeta. rewrite update_stock_qty_eq.
  destruct (get_stock_item_requests self sku w) as [Hr Hq].
  pose proof (get_stock_item_writes self sku w) as Hw.
  destruct (get_stock_item self sku w) as [r w1]. cbn [fst snd] in *.
  assert (Hlog : forall ev, is_log ev ->
             requests (trace (record ev w1))
             = (requests (trace w) ++ [stock_item_request self sku])%list
             /\ writes (trace (record ev w1)) = (writes (trace w) ++ [])%list
             /\ queries (trace (record ev w1)) = queries (trace w)).
  { intros ev (lvl & msg & ->). cbn. rewrite requests_app, writes_app, queries_app.
    cbn. rewrite !app_nil_r. auto. }
  assert (Hnil : requests (trace w1)
                 = (requests (trace w) ++ [stock_item_request self sku])%list
                 /\ writes (trace w1) = (writes (trace w) ++ [])%list
                 /\ queries (trace w1) = queries (trace w)).
  { rewrite app_nil_r. auto. }
  destruct r as [v | e]; [|exists []; cbn [snd]; intuition].
  destruct v as [| b | z | f | s | l | d]; cbn [snd];
    try (exists []; intuition; fail);
    try (exists []; destruct (Hlog (Logged WARNING
           (lit "Cannot update stock: SKU '" ++ lit sku ++ lit "' not found in Magento")))
           as (A & B & C); [eexists _, _; reflexivity | auto]; fail).
  destruct (truthy (item_id_of d)) eqn:Hid; cbn [negb].
  2:{ exists []. destruct (Hlog (Logged ERROR
           (lit "No item_id found for SKU '" ++ lit sku ++ lit "'"))) as (A & B & C);
        [eexists _, _; reflexivity | auto]. }
  cbv zeta.
  exists [stock_item_write self sku (item_id_of d) qty o].
  assert (Hput : forall ev, is_log ev ->
             let w2 := record ev (record (Sent (stock_item_write self sku (item_id_of d)
                                                                 qty o)) w1) in
             requests (trace w2)
             = (requests (trace w) ++ stock_item_request self sku
                  :: [stock_item_write self sku (item_id_of d) qty o])%list
             /\ writes (trace w2)
                = (writes (trace w) ++ [stock_item_write self sku (item_id_of d) qty o])%list
             /\ queries (trace w2) = queries (trace w)).
  { intros ev (lvl & msg & ->). cbn.
    rewrite !requests_app, !writes_app, !queries_app, Hr, Hw, Hq. cbn.
    rewrite !app_nil_r, <- app_assoc. auto. }
  destruct (transport (trace w1) _) as [resp | | e];
    [destruct (http_error_msg _ resp)| |];
    cbn [snd update_failed];
    (edestruct Hput as (A & B & C); [eexists _, _; reflexivity|]);
    cbv zeta in A, B, C; rewrite A, B, C;
    (split; [reflexivity|]); (split; [reflexivity|]); (split; [reflexivity|]);
    right; exists d; auto.
Qed.

End UpdateShape.

(** X8. What [update_stock_qty] raises. An exception of its fetch is passed
    on, and then no write is sent. A write that ends in a timeout, in
    another failure of the transport or in a 4xx or 5xx status raises
    [MagentoClientError], after one error record. Whatever is raised is
    either a [MagentoClientError] that names the SKU, or the
    [AttributeError] of a fetched body that is no JSON object. *)
Theorem update_stock_qty_errors {host : Host} (self : MagentoClient) (sku : string)
        (qty : number) (o : option bool) (w : world) :
  let res := update_stock_qty self sku qty o w in
  let w1 := snd (get_stock_item self sku w) in
  (forall e, fst (get_stock_item self sku w) = Raise e ->
             res = (Raise e, w1) /\ writes (trace w1) = writes (trace w))
  /\ (forall e, fst res = Raise e ->
                e = AttributeError
                \/ exists msg, e = MagentoClientError msg /\ mentions sku msg)
  /\ (forall d, fst (get_stock_item self sku w) = Ok (VDict d) ->
                truthy (item_id_of d) = true ->
                let r := stock_item_write self sku (item_id_of d) qty o in
                (transport (trace w1) r = TimedOut
                 \/ (exists e, transport (trace w1) r = Failed e)
                 \/ (exists resp, transport (trace w1) r = Responded resp
                                  /\ error_status (status_code resp))) ->
                exists msg log,
                  fst res = Raise (MagentoClientError msg)
                  /\ mentions sku msg
                  /\ trace (snd res) = (trace w1 ++ [Sent r; Logged ERROR log])%list).
Proof.
  intros res w1. subst res w1.
  rewrite update_stock_qty_eq.
  pose proof (get_stock_item_writes self sku w) as Hw.
  pose proof (get_stock_item_raises self sku w) as Hraise.
  destruct (get_stock_item self sku w) as [r w1]. cbn [fst snd] in *.
  split; [|split].
  - intros e ->. auto.
  - destruct r as [v | e0].
    + destruct v as [| b | z | f | s | l | d]; cbn [fst];
        try discriminate; try (intros e [= <-]; now left).
      destruct (truthy (item_id_of d)); cbn [negb]; [|discriminate].
      cbv zeta.
      destruct (transport (trace w1) _) as [resp | | e0];
        [destruct (http_error_msg _ resp); [discriminate|] | |];
        cbn; intros e [= <-]; right; eexists; (split; [reflexivity|]);
        unfold mentions; cbn; auto.
    + cbn. intros e [= <-]. right. now apply Hraise.
  - intros d -> Hid Hfail. rewrite Hid. cbn [negb]. cbv zeta.
    destruct Hfail as [-> | [(e & ->) | (resp & -> & Herr)]].
    + eexists _, _. cbn. rewrite <- app_assoc. cbn.
      split; [reflexivity|]. split; [|reflexivity]. unfold mentions. cbn. auto.
    + eexists _, _. cbn. rewrite <- app_assoc. cbn.
      split; [reflexivity|]. split; [|reflexivity]. unfold mentions. cbn. auto.
    + destruct (http_error_msg _ resp) eqn:Hm.
      * apply http_error_msg_nil in Hm. contradiction.
      * eexists _, _. cbn. rewrite <- app_assoc. cbn.
        split; [reflexivity|]. split; [|reflexivity]. unfold mentions. cbn. auto.
Qed.

(** The fetch of the update meets a 500: the error names the SKU. *)
Lemma update_stock_qty_errors_witness :
  let h := served_by (always server_error) in
  exists msg,
    fst (@update_stock_qty h shop "TEST-SKU" (NInt 5) None fresh) = Raise (MagentoClientError msg)
    /\ mentions "TEST-SKU" msg.
Proof.
  intros h.
  destruct (proj1 (proj2 (@update_stock_qty_errors h shop "TEST-SKU" (NInt 5) None fresh))
                  _ eq_refl) as [H | (msg & Hm & Hs)]; [discriminate H|].
  exists msg. split; [now rewrite <- Hm | exact Hs].
Defined.

(** X9. [update_stock_qty] sends two requests at most: the [GET] of the
    record first, and then one [PUT] at most, which it sends only after a
    fetch that gave a record with an identifier; the URL of that [PUT] is
    made of the base URL of the client, the encoded SKU and that
    identifier. *)
Theorem update_sends_two_requests_at_most {host : Host} (self : MagentoClient)
        (sku : string) (qty : number) (o : option bool) (w : world) :
  let final := snd (update_stock_qty self sku qty o w) in
  exists rest,
    requests (trace final)
    = (requests (trace w) ++ stock_item_request self sku :: rest)%list
    /\ writes (trace final) = (writes (trace w) ++ rest)%list
    /\ (List.length rest <= 1)%nat
    /\ forall r, In r rest ->
         exists d,
           fst (get_stock_item self sku w) = Ok (VDict d)
           /\ truthy (item_id_of d) = true
           /\ req_method r = PUT
           /\ req_url r
              = (lit (base_url self) ++ lit "/rest/V1" ++ lit "/products/"
                 ++ lit (_encode_sku sku) ++ lit "/stockItems/"
                 ++ fmt (item_id_of d))%list.
Proof.
  cbv zeta.
  destruct (update_stock_qty_shape self sku qty o w) as (rest & Hr & Hw & _ & Hrest).
  exists rest. split; [exact Hr|]. split; [exact Hw|].
  destruct Hrest as [-> | (d & Hd & Hid & ->)].
  - split; [cbn; lia | intros r []].
  - split; [cbn; lia|].
    intros r [<- | []]. exists d. repeat split; assumption.
Qed.

Lemma update_sends_two_requests_at_most_witness :
  let h := served_by (one_record record_456 200) in
  exists d,
    fst (@get_stock_item h shop "TEST-SKU" fresh) = Ok (VDict d)
    /\ truthy (item_id_of d) = true
    /\ req_url (stock_item_write shop "TEST-SKU" (VInt 456) (NInt 100) None)
       = (lit "https://shop.example.com" ++ lit "/rest/V1" ++ lit "/products/"
          ++ lit "TEST-SKU" ++ lit "/stockItems/" ++ fmt (item_id_of d))%list.
Proof.
  intros h.
  destruct (@update_sends_two_requests_at_most h shop "TEST-SKU" (NInt 100) None fresh)
    as (rest & Hr & _ & _ & Hin).
  assert (Hrest : rest = [stock_item_write shop "TEST-SKU" (VInt 456) (NInt 100) None]).
  { cbn in Hr. now injection Hr as <-. }
  destruct (Hin (stock_item_write shop "TEST-SKU" (VInt 456) (NInt 100) None)) as (d & A & B & _ & C).
  - rewrite Hrest. now left.
  - exists d. repeat split; assumption.
Defined.

(** ** The shape of one attempt *)

Section AttemptShape.
Context {host : Host}.

Lemma writes_requests (t : list event) : writes t = filter is_put (requests t).
Proof.
  induction t as [|ev t IH]; [reflexivity|].
  destruct ev as [r | m k | lvl msg]; cbn; [|exact IH|exact IH].
  unfold is_put. destruct (req_method r); cbn; now rewrite IH.
Qed.

Lemma record_log (ev : event) (w : world) :
  is_log ev ->
  requests (trace (record ev w)) = requests (trace w)
  /\ queries (trace (record ev w)) = queries (trace w).
Proof.
  intros (lvl & msg & ->). cbn. rewrite requests_app, queries_app. cbn.
  now rewrite !app_nil_r.
Qed.

Lemma log_events (kind sku : string) (a b : float) (e : fstring) :
  is_log (log_not_found kind sku) /\ is_log (log_in_sync kind sku a)
  /\ is_log (log_would_sync kind sku a b) /\ is_log (log_synced kind sku a b)
  /\ is_log (log_sync_failed kind sku) /\ is_log (log_api_error kind sku e).
Proof. repeat split; eexists _, _; reflexivity. Qed.

(** The requests of [_sync_part]: none, the fetch, or the fetch and the
    requests of the update; and no look-up. *)
Lemma sync_part_shape (cfg : settings) (part : Part) (client : MagentoClient)
      (kind : string) (w : world) :
  let final := snd (_sync_part cfg part client kind w) in
  let fetch := stock_item_request client (name part) in
  queries (trace final) = queries (trace w)
  /\ exists rs,
      requests (trace final) = (requests (trace w) ++ rs)%list
      /\ (rs = [] \/ rs = [fetch] \/ rs = [fetch; fetch]
          \/ exists item_id,
              rs = [fetch; fetch;
                    stock_item_write client (name part) item_id (NFloat (Binary64.of_decimal (total_stock part))) None]).
Proof.
  cbv zeta.
  destruct (string_dec (name part) "") as [E | Hname].
  { unfold _sync_part. rewrite E. cbn. rewrite requests_app, queries_app. cbn.
    rewrite !app_nil_r. split; [reflexivity|]. exists []. rewrite app_nil_r. auto. }
  rewrite (sync_part_eq cfg part client kind w Hname). cbv zeta.
  destruct (get_stock_qty_requests client (name part) w) as (Hr & _ & Hq).
  destruct (get_stock_qty client (name part) w) as [r1 w1]. cbn [snd] in Hr, Hq.
  destruct (log_events kind (name part) (Binary64.of_decimal (total_stock part))
                      (Binary64.of_decimal (total_stock part)) [])
    as (L1 & L2 & _).
  assert (Hone : forall ev, is_log ev ->
             queries (trace (record ev w1)) = queries (trace w)
             /\ exists rs,
                 requests (trace (record ev w1)) = (requests (trace w) ++ rs)%list
                 /\ (rs = [] \/ rs = [stock_item_request client (name part)]
                     \/ rs = [stock_item_request client (name part);
                              stock_item_request client (name part)]
                     \/ exists item_id,
                         rs = [stock_item_request client (name part);
                               stock_item_request client (name part);
                               stock_item_write client (name part) item_id
                                                (NFloat (Binary64.of_decimal (total_stock part))) None])).
  { intros ev Hev. destruct (record_log ev w1 Hev) as [A B].
    rewrite A, B, Hr, Hq. split; [reflexivity|]. eexists. split; [reflexivity|]. auto. }
  assert (Hraise : queries (trace w1) = queries (trace w)
             /\ exists rs,
                 requests (trace w1) = (requests (trace w) ++ rs)%list
                 /\ (rs = [] \/ rs = [stock_item_request client (name part)]
                     \/ rs = [stock_item_request client (name part);
                              stock_item_request client (name part)]
                     \/ exists item_id,
                         rs = [stock_item_request client (name part);
                               stock_item_request client (name part);
                               stock_item_write client (name part) item_id
                                                (NFloat (Binary64.of_decimal (total_stock part))) None])).
  { split; [exact Hq|]. eexists. split; [exact Hr|]. auto. }
  destruct r1 as [[m2_qty|] | e]; cbn [snd].
  - destruct (isclose _ _ _ _); [apply Hone; eexists _, _; reflexivity|].
    destruct (LOG_ONLY cfg); [apply Hone; eexists _, _; reflexivity|].
    destruct (update_stock_qty_shape client (name part) (NFloat (Binary64.of_decimal (total_stock part))) None w1)
      as (rest & Ur & _ & Uq & Urest).
    assert (Htwo : forall w2,
               requests (trace w2)
               = (requests (trace w1) ++ stock_item_request client (name part) :: rest)%list ->
               queries (trace w2) = queries (trace w1) ->
               forall t, requests t = requests (trace w2) -> queries t = queries (trace w2) ->
               queries t = queries (trace w)
               /\ exists rs,
                   requests t = (requests (trace w) ++ rs)%list
                   /\ (rs = [] \/ rs = [stock_item_request client (name part)]
                       \/ rs = [stock_item_request client (name part);
                                stock_item_request client (name part)]
                       \/ exists item_id,
                           rs = [stock_item_request client (name part);
                                 stock_item_request client (name part);
                                 stock_item_write client (name part) item_id
                                                  (NFloat (Binary64.of_decimal (total_stock part))) None])).
    { intros w2 A B t C D. rewrite D, B, Hq. split; [reflexivity|].
      rewrite C, A, Hr, <- app_assoc. cbn.
      eexists. split; [reflexivity|].
      destruct Urest as [-> | (d & _ & _ & ->)]; [auto|].
      right. right. right. eexists. reflexivity. }
    destruct (update_stock_qty client (name part) (NFloat (Binary64.of_decimal (total_stock part))) None w1)
      as [[[] | e] w2]; cbn [snd] in Ur, Uq |- *.
    + apply (Htwo w2 Ur Uq); cbn; rewrite ?requests_app, ?queries_app; cbn;
        now rewrite app_nil_r.
    + apply (Htwo w2 Ur Uq); cbn; rewrite ?requests_app, ?queries_app; cbn;
        now rewrite app_nil_r.
    + destruct e; cbn [snd];
        try (apply (Htwo w2 Ur Uq); reflexivity).
      apply (Htwo w2 Ur Uq); cbn; rewrite ?requests_app, ?queries_app; cbn;
        now rewrite app_nil_r.
  - apply Hone; eexists _, _; reflexivity.
  - destruct e; cbn [snd]; try exact Hraise.
    apply Hone; eexists _, _; reflexivity.
Qed.

End AttemptShape.

(** ** Attempts that stop before the comparison, and attempts that update *)

(** X10. [_sync_part] gives up early in two cases. A part without a name
    is skipped at once: one debug record, and nothing is sent. When the
    remote side reports the SKU absent, the attempt ends with a warning: the
    fetch is its only request and no write is sent. *)
Theorem sync_part_stops_early {host : Host} (cfg : settings) (part : Part)
        (client : MagentoClient) (kind : string) (w : world) :
  let final := _sync_part cfg part client kind w in
  (name part = "" ->
   final = (Ok tt,
            record (Logged DEBUG (lit "Part " ++ fmt (VInt (pk part))
                                  ++ lit " has no name, skipping sync")) w)
   /\ requests (trace (snd final)) = requests (trace w))
  /\ (name part <> "" ->
      forall w1, get_stock_qty client (name part) w = (Ok None, w1) ->
                 final = (Ok tt, record (log_not_found kind (name part)) w1)
                 /\ requests (trace (snd final))
                    = (requests (trace w) ++ [stock_item_request client (name part)])%list
                 /\ writes (trace (snd final)) = writes (trace w)).
Proof.
  cbv zeta. split.
  - intros E. unfold _sync_part. rewrite E. cbn.
    split; [reflexivity|]. rewrite requests_app. cbn. apply app_nil_r.
  - intros Hname w1 Hfetch.
    destruct (get_stock_qty_requests client (name part) w) as (Hr & Hw & _).
    rewrite Hfetch in Hr, Hw. cbn [snd] in Hr, Hw.
    rewrite (sync_part_eq cfg part client kind w Hname). cbv zeta. rewrite Hfetch.
    split; [reflexivity|]. cbn. rewrite requests_app, writes_app, Hr, Hw. cbn.
    now rewrite !app_nil_r.
Qed.

Lemma sync_part_stops_early_witness :
  let h := served_by (always not_found) in
  let final := @_sync_part h live (widget 42) shop "stockitem.moved" fresh in
  fst final = Ok tt
  /\ requests (trace (snd final)) = [stock_item_request shop "WIDGET-1"]
  /\ writes (trace (snd final)) = [].
Proof.
  intros h final.
  destruct (proj2 (@sync_part_stops_early h live (widget 42) shop "stockitem.moved" fresh)
                  ltac:(discriminate) _ eq_refl) as (A & B & C).
  subst final. rewrite A. split; [reflexivity|]. rewrite A in B, C. auto.
Defined.

(** X11. One full reconciliation. When [math.isclose], in binary64
    arithmetic, finds the local and the remote quantity not close,
    [LOG_ONLY] is off, the second fetch gives a record with an identifier
    and the write is answered with a status outside 400..599,
    [_sync_part] ends normally after three requests, the fetch, the fetch of
    the update and one [PUT]. The [PUT] carries the binary64 number
    nearest to the local total, and an in-stock flag that is set exactly
    when that number is positive. The
    attempt ends with the info record of the client and the "Synced" info
    record, which states the remote and the local quantity. *)
Theorem sync_part_updates_remote {host : Host} (cfg : settings) (part : Part)
        (client : MagentoClient) (kind : string) (w w1 w2 : world) (r : float)
        (d : list (string * value)) (resp : response) :
  name part <> "" ->
  LOG_ONLY cfg = false ->
  get_stock_qty client (name part) w = (Ok (Some r), w1) ->
  let l := Binary64.of_decimal (total_stock part) in
  isclose l r 1e-9 0.001 = false ->
  get_stock_item client (name part) w1 = (Ok (VDict d), w2) ->
  truthy (item_id_of d) = true ->
  let fetch := stock_item_request client (name part) in
  let write := stock_item_write client (name part) (item_id_of d) (NFloat l) None in
  transport (trace w2) write = Responded resp ->
  ~ error_status (status_code resp) ->
  let final := _sync_part cfg part client kind w in
  fst final = Ok tt
  /\ requests (trace (snd final)) = (requests (trace w) ++ [fetch; fetch; write])%list
  /\ writes (trace (snd final)) = (writes (trace w) ++ [write])%list
  /\ req_json write = Some (stock_item_body (NFloat l) (0 <? l)%float)
  /\ exists client_log,
      trace (snd final)
      = (trace w2 ++ [Sent write; Logged INFO client_log;
                      log_synced kind (name part) r l])%list.
Proof.
  intros Hname Hlog Hqty l Hne Hitem Hid fetch write Hput Hs final.
  subst l fetch write final.
  destruct (get_stock_qty_requests client (name part) w) as (Hr1 & Hw1 & _).
  rewrite Hqty in Hr1, Hw1. cbn [snd] in Hr1, Hw1.
  destruct (get_stock_item_requests client (name part) w1) as (Hr2 & _).
  pose proof (get_stock_item_writes client (name part) w1) as Hw2.
  rewrite Hitem in Hr2, Hw2. cbn [snd] in Hr2, Hw2.
  rewrite (sync_part_eq cfg part client kind w Hname). cbv zeta.
  rewrite Hqty, Hne, Hlog.
  rewrite update_stock_qty_eq, Hitem, Hid. cbn [negb]. cbv zeta.
  rewrite Hput, (proj2 (http_error_msg_nil _ resp) Hs).
  split; [reflexivity|]. cbn.
  rewrite !requests_app, !writes_app, Hr2, Hr1, Hw2, Hw1. cbn.
  rewrite !app_nil_r, <- !app_assoc. cbn.
  repeat split. eexists. reflexivity.
Qed.

(** The scenario of the specification: 42 locally, 40 remotely. *)
Lemma sync_part_updates_remote_witness :
  let h := served_by (one_record remote_40 200) in
  let final := @_sync_part h live (widget 42) shop "stockitem.quantityupdated" fresh in
  fst final = Ok tt
  /\ writes (trace (snd final)) = [stock_item_write shop "WIDGET-1" (VInt 9) (NFloat 42) None]
  /\ req_json (stock_item_write shop "WIDGET-1" (VInt 9) (NFloat 42) None)
     = Some (stock_item_body (NFloat 42) true).
Proof.
  intros h final.
  assert (Hne : isclose (Binary64.of_decimal (total_stock (widget 42))) 40 1e-9 0.001
                = false)
    by (vm_compute; reflexivity).
  destruct (@sync_part_updates_remote h live (widget 42) shop "stockitem.quantityupdated"
              fresh _ _ 40
              [("item_id", VInt 9); ("qty", VInt 40); ("is_in_stock", VBool true)]
              {| status_code := 200; reason := ""; body := Json (VInt 456) |}
              ltac:(discriminate) eq_refl eq_refl Hne eq_refl eq_refl eq_refl
              ltac:(unfold error_status; cbn; lia)) as (A & _ & B & C & _).
  split; [exact A | split; [exact B | exact C]].
Defined.

(** X12. The record may vanish between the two fetches. When the fetch of
    [_sync_part] found a quantity that [math.isclose], in binary64
    arithmetic, finds not close to the local one, but the fetch of the
    update reports the SKU absent, no write is sent:
    [_sync_part] ends normally after the warning of the client and the error
    record "Failed to sync". *)
Theorem sync_part_record_vanished {host : Host} (cfg : settings) (part : Part)
        (client : MagentoClient) (kind : string) (w w1 w2 : world) (r : float) :
  name part <> "" ->
  LOG_ONLY cfg = false ->
  get_stock_qty client (name part) w = (Ok (Some r), w1) ->
  isclose (Binary64.of_decimal (total_stock part)) r 1e-9 0.001 = false ->
  get_stock_item client (name part) w1 = (Ok VNone, w2) ->
  let fetch := stock_item_request client (name part) in
  let final := _sync_part cfg part client kind w in
  fst final = Ok tt
  /\ requests (trace (snd final)) = (requests (trace w) ++ [fetch; fetch])%list
  /\ writes (trace (snd final)) = writes (trace w)
  /\ exists client_log,
      trace (snd final)
      = (trace w2 ++ [Logged WARNING client_log; log_sync_failed kind (name part)])%list.
Proof.
  intros Hname Hlog Hqty Hne Hitem fetch final. subst fetch final.
  destruct (get_stock_qty_requests client (name part) w) as (Hr1 & Hw1 & _).
  rewrite Hqty in Hr1, Hw1. cbn [snd] in Hr1, Hw1.
  destruct (get_stock_item_requests client (name part) w1) as (Hr2 & _).
  pose proof (get_stock_item_writes client (name part) w1) as Hw2.
  rewrite Hitem in Hr2, Hw2. cbn [snd] in Hr2, Hw2.
  rewrite (sync_part_eq cfg part client kind w Hname). cbv zeta.
  rewrite Hqty, Hne, Hlog.
  rewrite update_stock_qty_eq, Hitem.
  split; [reflexivity|]. cbn.
  rewrite !requests_app, !writes_app, Hr2, Hr1, Hw2, Hw1. cbn.
  rewrite !app_nil_r, <- !app_assoc. cbn.
  repeat split. eexists. reflexivity.
Qed.

Lemma sync_part_record_vanished_witness :
  let h := served_by (vanishing remote_40) in
  let final := @_sync_part h live (widget 42) shop "stockitem.quantityupdated" fresh in
  fst final = Ok tt /\ writes (trace (snd final)) = [].
Proof.
  intros h final.
  assert (Hne : isclose (Binary64.of_decimal (total_stock (widget 42))) 40 1e-9 0.001
                = false)
    by (vm_compute; reflexivity).
  destruct (@sync_part_record_vanished h live (widget 42) shop "stockitem.quantityupdated"
              fresh _ _ 40 ltac:(discriminate) eq_refl eq_refl Hne eq_refl)
    as (A & _ & B & _).
  split; [exact A | exact B].
Defined.

(** ** One notification *)

Section Notification.
Context {host : Host}.

(** With complete settings [magento] gives a client and leaves the trace
    alone; in a consistent state that client is set up with the settings. *)
Lemma magento_configured (cfg : settings) (w : world) :
  MAGENTO_URL cfg <> "" -> MAGENTO_TOKEN cfg <> "" ->
  exists c w',
    magento cfg w = (Ok (Some c), w')
    /\ trace w' = trace w
    /\ (consistent w ->
        base_url c = rstrip_slash (MAGENTO_URL cfg) /\ token c = MAGENTO_TOKEN cfg).
Proof.
  intros Hu Ht. rewrite (magento_eq cfg w Hu Ht). cbv zeta.
  destruct (is_None (_client w)) eqn:Hn; cbn [orb].
  { eexists _, _. split; [reflexivity|]. cbn. auto. }
  destruct (_cached_url w =? MAGENTO_URL cfg)%string eqn:Eu; cbn [negb orb].
  2:{ eexists _, _. split; [reflexivity|]. cbn. auto. }
  destruct (_cached_token w =? MAGENTO_TOKEN cfg)%string eqn:Et; cbn [negb].
  2:{ eexists _, _. split; [reflexivity|]. cbn. auto. }
  apply String.eqb_eq in Eu, Et.
  destruct (_client w) as [c|] eqn:Hc; [|discriminate Hn].
  exists c, w. split; [reflexivity|]. split; [reflexivity|].
  unfold consistent. rewrite Hc. intros (A & B & _). now rewrite A, B, Eu, Et.
Qed.

Lemma magento_unconfigured (cfg : settings) (w : world) :
  MAGENTO_URL cfg = "" \/ MAGENTO_TOKEN cfg = "" ->
  magento cfg w
  = (Ok None, record (Logged WARNING (lit "Magento URL or token not configured")) w).
Proof.
  intros [E | E]; unfold magento; rewrite E, ?orb_true_r; reflexivity.
Qed.

Lemma attempt_of_sync_part (cfg : settings) (part : Part) (client : MagentoClient)
      (kind : string) (w : world) :
  let final := snd (_sync_part cfg part client kind w) in
  queries (trace final) = queries (trace w)
  /\ exists rs, requests (trace final) = (requests (trace w) ++ rs)%list
                /\ attempt_requests client rs.
Proof.
  cbv zeta. destruct (sync_part_shape cfg part client kind w) as (Hq & rs & Hr & Hs).
  split; [exact Hq|]. exists rs. split; [exact Hr|].
  destruct Hs as [-> | [-> | [-> | (i & ->)]]]; [now left | right; exists (name part)..].
  - now left.
  - right. now left.
  - right. right. now exists i, (NFloat (Binary64.of_decimal (total_stock part))).
Qed.

(** The look-ups and the requests of one notification. *)
Lemma process_event_shape (cfg : settings) (kind : string)
      (kwargs : list (string * value)) (w : world) :
  let final := snd (process_event cfg kind kwargs w) in
  exists qs rs,
    queries (trace final) = (queries (trace w) ++ qs)%list
    /\ requests (trace final) = (requests (trace w) ++ rs)%list
    /\ (qs = []
        \/ (kind = "stock_stockitem.deleted"
            /\ qs = [("Part", kwargs_get kwargs "part_id")])
        \/ (kind <> "stock_stockitem.deleted"
            /\ qs = [("StockItem", kwargs_get kwargs "id")]))
    /\ (rs = []
        \/ exists c, fst (magento cfg w) = Ok (Some c) /\ attempt_requests c rs).
Proof.
  cbv zeta. set (held := fst (magento cfg w)).
  assert (Hsame : forall w', requests (trace w') = requests (trace w) ->
             queries (trace w') = queries (trace w) ->
             exists qs rs,
               queries (trace w') = (queries (trace w) ++ qs)%list
               /\ requests (trace w') = (requests (trace w) ++ rs)%list
               /\ (qs = []
                   \/ (kind = "stock_stockitem.deleted"
                       /\ qs = [("Part", kwargs_get kwargs "part_id")])
                   \/ (kind <> "stock_stockitem.deleted"
                       /\ qs = [("StockItem", kwargs_get kwargs "id")]))
               /\ (rs = []
                   \/ exists c, held = Ok (Some c) /\ attempt_requests c rs)).
  { intros w' A B. exists [], []. rewrite A, B, !app_nil_r. auto. }
  assert (Hlog : forall w' ev, is_log ev -> trace w' = trace w ->
             requests (trace (record ev w')) = requests (trace w)
             /\ queries (trace (record ev w')) = queries (trace w)).
  { intros w' ev Hev Htr. destruct (record_log ev w' Hev) as [A B].
    now rewrite A, B, Htr. }
  unfold process_event.
  destruct (SYNC_ENABLED cfg); cbn [negb]; [|now apply Hsame].
  destruct (string_dec (MAGENTO_URL cfg) "") as [Eu | Hu].
  { unfold bind. rewrite (magento_unconfigured cfg w (or_introl Eu)).
    apply Hsame; apply (Hlog w); try reflexivity; eexists _, _; reflexivity. }
  destruct (string_dec (MAGENTO_TOKEN cfg) "") as [Et | Ht].
  { unfold bind. rewrite (magento_unconfigured cfg w (or_intror Et)).
    apply Hsame; apply (Hlog w); try reflexivity; eexists _, _; reflexivity. }
  destruct (magento_configured cfg w Hu Ht) as (c & w' & Hm & Htr & _).
  unfold bind. rewrite Hm.
  destruct (truthy (kwargs_get kwargs "id")); cbn [negb].
  2:{ apply Hsame; apply (Hlog w'); try assumption; eexists _, _; reflexivity. }
  destruct (kind =? "stock_stockitem.deleted")%string eqn:Ek.
  - apply String.eqb_eq in Ek.
    destruct (truthy (kwargs_get kwargs "part_id")); cbn [negb].
    2:{ apply Hsame; apply (Hlog w'); try assumption; eexists _, _; reflexivity. }
    unfold _sync_part_by_id.
    destruct part_models; cbn [negb].
    2:{ apply Hsame; apply (Hlog w'); try assumption; eexists _, _; reflexivity. }
    unfold bind, emit.
    destruct (Part_get (kwargs_get kwargs "part_id")) as [part|].
    + destruct (attempt_of_sync_part cfg part c kind
                  (record (Queried "Part" (kwargs_get kwargs "part_id")) w'))
        as (Hq & rs & Hr & Hs).
      exists [("Part", kwargs_get kwargs "part_id")], rs.
      rewrite Hq, Hr. cbn. rewrite requests_app, queries_app, Htr. cbn.
      rewrite app_nil_r. repeat split; [auto|].
      right. exists c. subst held. now rewrite Hm.
    + exists [("Part", kwargs_get kwargs "part_id")], [].
      cbn. rewrite !requests_app, !queries_app, Htr. cbn.
      rewrite !app_nil_r. repeat split; auto.
  - apply String.eqb_neq in Ek.
    unfold _sync_stock_item.
    destruct stock_models; cbn [negb].
    2:{ apply Hsame; apply (Hlog w'); try assumption; eexists _, _; reflexivity. }
    unfold bind, emit.
    destruct (StockItem_get (kwargs_get kwargs "id")) as [[part|]|].
    + destruct (attempt_of_sync_part cfg part c kind
                  (record (Queried "StockItem" (kwargs_get kwargs "id")) w'))
        as (Hq & rs & Hr & Hs).
      exists [("StockItem", kwargs_get kwargs "id")], rs.
      rewrite Hq, Hr. cbn. rewrite requests_app, queries_app, Htr. cbn.
      rewrite app_nil_r. repeat split; [auto|].
      right. exists c. subst held. now rewrite Hm.
    + exists [("StockItem", kwargs_get kwargs "id")], [].
      cbn. rewrite !requests_app, !queries_app, Htr. cbn.
      rewrite !app_nil_r. repeat split; auto.
    + exists [("StockItem", kwargs_get kwargs "id")], [].
      cbn. rewrite !requests_app, !queries_app, Htr. cbn.
      rewrite !app_nil_r. repeat split; auto.
Qed.

Lemma attempt_requests_bounds (c : MagentoClient) (rs : list request) :
  attempt_requests c rs ->
  (List.length rs <= 3)%nat /\ (List.length (filter is_put rs) <= 1)%nat.
Proof.
  intros [-> | (sku & [-> | [-> | (i & q & ->)]])]; cbn; lia.
Qed.

Lemma attempt_requests_target (c : MagentoClient) (url : string) (rs : list request) :
  base_url c = rstrip_slash url ->
  attempt_requests c rs ->
  forall r, In r rs -> targets url r.
Proof.
  intros Hb Hs r Hin. unfold targets.
  assert (G : forall sku, exists path,
             req_url (stock_item_request c sku)
             = (lit (rstrip_slash url) ++ lit "/rest/V1" ++ path)%list).
  { intros sku. eexists. cbn. unfold _url. rewrite Hb. reflexivity. }
  assert (P : forall sku i q o, exists path,
             req_url (stock_item_write c sku i q o)
             = (lit (rstrip_slash url) ++ lit "/rest/V1" ++ path)%list).
  { intros sku i q o. eexists. cbn. unfold _url. rewrite Hb. reflexivity. }
  destruct Hs as [-> | (sku & [-> | [-> | (i & q & ->)]])]; cbn in Hin;
    intuition (subst; auto).
Qed.

End Notification.

(** X13. A notification that finds the plugin idle. With [SYNC_ENABLED]
    off, [process_event] returns at once and changes nothing: no log record,
    no client, no look-up, no request. With sync enabled but an empty URL or
    an empty token, it returns after the one warning of [magento], and
    nothing else changes. *)
Theorem process_event_idle {host : Host} (cfg : settings) (kind : string)
        (kwargs : list (string * value)) (w : world) :
  (SYNC_ENABLED cfg = false -> process_event cfg kind kwargs w = (Ok tt, w))
  /\ (SYNC_ENABLED cfg = true ->
      MAGENTO_URL cfg = "" \/ MAGENTO_TOKEN cfg = "" ->
      process_event cfg kind kwargs w
      = (Ok tt, record (Logged WARNING (lit "Magento URL or token not configured")) w)).
Proof.
  split.
  - intros E. unfold process_event. now rewrite E.
  - intros E Hcfg. unfold process_event. rewrite E. cbn [negb]. unfold bind.
    now rewrite (magento_unconfigured cfg w Hcfg).
Qed.

Lemma process_event_idle_witness :
  let h := served_by (one_record remote_40 200) in
  let off := {| MAGENTO_URL := "https://shop.example.com";
                MAGENTO_TOKEN := "test_token_123";
                SYNC_ENABLED := false; LOG_ONLY := false |} in
  @process_event h off "stockitem.quantityupdated" [("id", VInt 7)] fresh = (Ok tt, fresh).
Proof.
  intros h off.
  apply (proj1 (@process_event_idle h off "stockitem.quantityupdated" [("id", VInt 7)]
                                     fresh)).
  reflexivity.
Defined.

(** X14. How a notification with an [id] is dispatched, with sync enabled
    and complete settings. A deletion without [part_id] is dropped after a
    debug record, without look-up and without request. A deletion with a
    [part_id] looks up that part, and never the stock item. Every other
    kind, whether [wants_process_event] accepts it or not, looks up the
    stock item of the [id]; when that item does not exist, or has no part,
    nothing is sent. When the models of the host cannot be imported, nothing
    is looked up and nothing is sent. *)
Theorem process_event_dispatch {host : Host} (cfg : settings) (kind : string)
        (kwargs : list (string * value)) (w : world) :
  SYNC_ENABLED cfg = true ->
  MAGENTO_URL cfg <> "" ->
  MAGENTO_TOKEN cfg <> "" ->
  truthy (kwargs_get kwargs "id") = true ->
  let deleted := "stock_stockitem.deleted" in
  let id := kwargs_get kwargs "id" in
  let part_id := kwargs_get kwargs "part_id" in
  let final := process_event cfg kind kwargs w in
  (kind = deleted -> truthy part_id = false ->
   fst final = Ok tt
   /\ queries (trace (snd final)) = queries (trace w)
   /\ requests (trace (snd final)) = requests (trace w))
  /\ (kind = deleted -> truthy part_id = true -> part_models = true ->
      queries (trace (snd final)) = (queries (trace w) ++ [("Part", part_id)])%list)
  /\ (kind <> deleted -> stock_models = true ->
      queries (trace (snd final)) = (queries (trace w) ++ [("StockItem", id)])%list)
  /\ (wants_process_event kind = false -> kind <> deleted)
  /\ (kind <> deleted -> stock_models = true ->
      StockItem_get id = None \/ StockItem_get id = Some None ->
      fst final = Ok tt /\ requests (trace (snd final)) = requests (trace w))
  /\ ((kind = deleted /\ part_models = false) \/ (kind <> deleted /\ stock_models = false) ->
      fst final = Ok tt
      /\ queries (trace (snd final)) = queries (trace w)
      /\ requests (trace (snd final)) = requests (trace w)).
Proof.
  intros Hen Hu Ht Hid deleted id part_id final. subst deleted id part_id final.
  destruct (magento_configured cfg w Hu Ht) as (c & w' & Hm & Htr & _).
  unfold process_event, bind. rewrite Hen. cbn [negb]. rewrite Hm, Hid. cbn [negb].
  split; [|split; [|split; [|split; [|split]]]].
  - intros -> Hp. rewrite Hp. cbn. rewrite requests_app, queries_app, Htr. cbn.
    now rewrite !app_nil_r.
  - intros -> Hp Hmod. rewrite Hp, String.eqb_refl. cbn [negb].
    unfold _sync_part_by_id, bind, emit. rewrite Hmod.
    cbn [negb].
    destruct (Part_get (kwargs_get kwargs "part_id")) as [part|].
    + destruct (attempt_of_sync_part cfg part c "stock_stockitem.deleted"
                  (record (Queried "Part" (kwargs_get kwargs "part_id")) w')) as (Hq & _).
      rewrite Hq. cbn. rewrite queries_app, Htr. reflexivity.
    + cbn. rewrite !queries_app, Htr. cbn. now rewrite app_nil_r.
  - intros Hk Hmod. apply String.eqb_neq in Hk. rewrite Hk.
    unfold _sync_stock_item, bind, emit. rewrite Hmod. cbn [negb].
    destruct (StockItem_get (kwargs_get kwargs "id")) as [[part|]|].
    + destruct (attempt_of_sync_part cfg part c kind
                  (record (Queried "StockItem" (kwargs_get kwargs "id")) w')) as (Hq & _).
      rewrite Hq. cbn. rewrite queries_app, Htr. reflexivity.
    + cbn. rewrite !queries_app, Htr. cbn. now rewrite app_nil_r.
    + cbn. rewrite !queries_app, Htr. cbn. now rewrite app_nil_r.
  - intros Hw ->. discriminate Hw.
  - intros Hk Hmod Hget. apply String.eqb_neq in Hk. rewrite Hk.
    unfold _sync_stock_item, bind, emit. rewrite Hmod. cbn [negb].
    destruct Hget as [-> | ->]; cbn; rewrite !requests_app, Htr; cbn;
      now rewrite !app_nil_r.
  - intros [[-> Hmod] | [Hk Hmod]].
    + rewrite String.eqb_refl.
      destruct (truthy (kwargs_get kwargs "part_id")); cbn [negb].
      * unfold _sync_part_by_id. rewrite Hmod. cbn.
        rewrite requests_app, queries_app, Htr. cbn. now rewrite !app_nil_r.
      * cbn. rewrite requests_app, queries_app, Htr. cbn. now rewrite !app_nil_r.
    + apply String.eqb_neq in Hk. rewrite Hk.
      unfold _sync_stock_item. rewrite Hmod. cbn.
      rewrite requests_app, queries_app, Htr. cbn. now rewrite !app_nil_r.
Qed.

(** A kind that [wants_process_event] refuses is handled all the same. *)
Lemma process_event_dispatch_witness :
  let h := served_by (one_record remote_40 200) in
  wants_process_event "part_part.saved" = false
  /\ queries (trace (snd (@process_event h live "part_part.saved" [("id", VInt 7)] fresh)))
     = [("StockItem", VInt 7)].
Proof.
  intros h. split; [reflexivity|].
  refine (proj1 (proj2 (proj2 (@process_event_dispatch h live "part_part.saved"
                                 [("id", VInt 7)] fresh eq_refl _ _ eq_refl))) _ eq_refl);
    discriminate.
Defined.

(** X15. One notification costs little, whatever it holds and whatever the
    server answers: [process_event] makes one look-up at most, and sends
    three requests at most, of which one at most is a write. *)
Theorem process_event_bounds {host : Host} (cfg : settings) (kind : string)
        (kwargs : list (string * value)) (w : world) :
  let final := snd (process_event cfg kind kwargs w) in
  exists qs rs,
    queries (trace final) = (queries (trace w) ++ qs)%list
    /\ requests (trace final) = (requests (trace w) ++ rs)%list
    /\ writes (trace final) = (writes (trace w) ++ filter is_put rs)%list
    /\ (List.length qs <= 1)%nat
    /\ (List.length rs <= 3)%nat
    /\ (List.length (filter is_put rs) <= 1)%nat.
Proof.
  cbv zeta.
  destruct (process_event_shape cfg kind kwargs w) as (qs & rs & Hq & Hr & Hqs & Hrs).
  exists qs, rs. split; [exact Hq|]. split; [exact Hr|].
  split; [now rewrite !writes_requests, Hr, filter_app|].
  split.
  - destruct Hqs as [-> | [[_ ->] | [_ ->]]]; cbn; lia.
  - destruct Hrs as [-> | (c & _ & Hs)]; [cbn; lia|].
    apply (attempt_requests_bounds c rs Hs).
Qed.

(** X16. From a consistent state, every request that [process_event] sends
    goes to the REST root of the store of the current settings: its URL
    starts with [MAGENTO_URL], stripped of its trailing slashes, followed by
    [/rest/V1]; also when the plugin held a client for another URL
    before. *)
Theorem requests_go_to_configured_store {host : Host} (cfg : settings) (kind : string)
        (kwargs : list (string * value)) (w : world) :
  consistent w ->
  let final := snd (process_event cfg kind kwargs w) in
  exists rs,
    requests (trace final) = (requests (trace w) ++ rs)%list
    /\ forall r, In r rs -> targets (MAGENTO_URL cfg) r.
Proof.
  intros Hc. cbv zeta.
  destruct (process_event_shape cfg kind kwargs w) as (qs & rs & _ & Hr & _ & Hrs).
  exists rs. split; [exact Hr|].
  destruct Hrs as [-> | (c & Hm & Hs)]; [intros r []|].
  destruct (string_dec (MAGENTO_URL cfg) "") as [Eu | Hu].
  { rewrite (magento_unconfigured cfg w (or_introl Eu)) in Hm. discriminate Hm. }
  destruct (string_dec (MAGENTO_TOKEN cfg) "") as [Et | Ht].
  { rewrite (magento_unconfigured cfg w (or_intror Et)) in Hm. discriminate Hm. }
  destruct (magento_configured cfg w Hu Ht) as (c' & w' & Hm' & _ & Hb).
  rewrite Hm' in Hm. cbn in Hm. injection Hm as ->.
  destruct (Hb Hc) as [Hbase _].
  exact (attempt_requests_target c (MAGENTO_URL cfg) rs Hbase Hs).
Qed.

(** The plugin held a client for another store; the settings now name the
    shop of the scenarios. *)
Lemma requests_go_to_configured_store_witness :
  let h := {| transport := one_record remote_40 200;
              float_of_str := fun _ => None;
              stock_models := true;
              part_models := true;
              StockItem_get := fun _ => Some (Some (widget 42));
              Part_get := fun _ => None |} in
  let before := snd (magento {| MAGENTO_URL := "https://old.example.com/";
                                MAGENTO_TOKEN := "old"; SYNC_ENABLED := true;
                                LOG_ONLY := false |} fresh) in
  exists rs,
    requests (trace (snd (@process_event h live "stock_stockitem.saved" [("id", VInt 7)]
                                         before)))
    = rs
    /\ List.length rs = 3%nat
    /\ forall r, In r rs -> targets "https://shop.example.com" r.
Proof.
  intros h before.
  assert (Hc : consistent before) by (cbn; auto).
  destruct (@requests_go_to_configured_store h live "stock_stockitem.saved"
              [("id", VInt 7)] before Hc) as (rs & Hr & Ht).
  exists rs. split; [exact Hr|]. split; [|exact Ht].
  cbn in Hr. now subst rs.
Defined.

(** ** The client over the life of the plugin *)

Section History.

Lemma magento_consistent (cfg : settings) (w : world) :
  consistent w -> consistent (snd (magento cfg w)).
Proof.
  intros Hc.
  destruct (string_dec (MAGENTO_URL cfg) "") as [Eu | Hu];
    [rewrite (magento_unconfigured cfg w (or_introl Eu)); exact Hc|].
  destruct (string_dec (MAGENTO_TOKEN cfg) "") as [Et | Ht];
    [rewrite (magento_unconfigured cfg w (or_intror Et)); exact Hc|].
  rewrite (magento_eq cfg w Hu Ht). cbv zeta.
  destruct (is_None (_client w) || _ || _); [|exact Hc].
  unfold consistent, built. cbn. auto.
Qed.

Lemma after_uses_consistent (cfgs : list settings) (w : world) :
  consistent w -> consistent (after_uses cfgs w).
Proof.
  revert w. induction cfgs as [|cfg cfgs IH]; intros w Hc; [exact Hc|].
  cbn. apply IH. now apply magento_consistent.
Qed.

End History.

(** X17. Whatever settings the plugin has been used under since its
    creation, the client that [magento] hands out is set up with the
    settings of the moment: its base URL is the current [MAGENTO_URL]
    without trailing slashes and its token is the current [MAGENTO_TOKEN].
    It hands out no client exactly when the URL or the token is empty. *)
Theorem magento_follows_settings (cfgs : list settings) (cfg : settings) :
  let w := after_uses cfgs fresh in
  (forall c, fst (magento cfg w) = Ok (Some c) ->
             base_url c = rstrip_slash (MAGENTO_URL cfg)
             /\ token c = MAGENTO_TOKEN cfg)
  /\ (fst (magento cfg w) = Ok None <->
      MAGENTO_URL cfg = "" \/ MAGENTO_TOKEN cfg = "").
Proof.
  cbv zeta.
  assert (Hc : consistent (after_uses cfgs fresh))
    by (apply after_uses_consistent; exact I).
  set (w := after_uses cfgs fresh) in *.
  destruct (string_dec (MAGENTO_URL cfg) "") as [Eu | Hu].
  { rewrite (magento_unconfigured cfg w (or_introl Eu)). cbn.
    split; [discriminate | split; auto]. }
  destruct (string_dec (MAGENTO_TOKEN cfg) "") as [Et | Ht].
  { rewrite (magento_unconfigured cfg w (or_intror Et)). cbn.
    split; [discriminate | split; auto]. }
  destruct (magento_configured cfg w Hu Ht)
    as (c & w' & -> & _ & Hb).
  cbn. split.
  - intros c' [= <-]. exact (Hb Hc).
  - split; [discriminate | intros [E | E]; contradiction].
Qed.

(** The URL changes twice, and a slash is added at last. *)
Lemma magento_follows_settings_witness :
  let at_url := fun url => {| MAGENTO_URL := url; MAGENTO_TOKEN := "t";
                              SYNC_ENABLED := true; LOG_ONLY := false |} in
  exists c,
    fst (magento (at_url "https://b.example.com/")
                 (after_uses [at_url "https://a.example.com"; at_url "https://b.example.com"]
                             fresh))
    = Ok (Some c)
    /\ base_url c = "https://b.example.com".
Proof.
  intros at_url. eexists. split; [reflexivity|].
  apply (proj1 (magento_follows_settings
                  [at_url "https://a.example.com"; at_url "https://b.example.com"]
                  (at_url "https://b.example.com/"))).
  reflexivity.
Defined.

(** ** Every outcome is logged *)

Section Logging.
Context {host : Host}.

Lemma extends_refl (w : world) : extends w w.
Proof. exists []. now rewrite app_nil_r. Qed.

Lemma extends_record (ev : event) (w w' : world) :
  extends w w' -> extends w (record ev w').
Proof.
  intros [t Ht]. exists (t ++ [ev])%list. cbn. now rewrite Ht, app_assoc.
Qed.

Lemma extends_trans (a b c : world) : extends a b -> extends b c -> extends a c.
Proof.
  intros [t Ht] [u Hu]. exists (t ++ u)%list. now rewrite Hu, Ht, app_assoc.
Qed.

Lemma ends_with_log_record (lvl : level) (msg : fstring) (w w' : world) :
  extends w w' -> ends_with_log w (record (Logged lvl msg) w').
Proof.
  intros [t Ht]. exists t, lvl, msg. cbn. now rewrite Ht, app_assoc.
Qed.

Lemma ends_with_log_after (a b c : world) :
  extends a b -> ends_with_log b c -> ends_with_log a c.
Proof.
  intros [t Ht] (u & lvl & msg & Hu). exists (t ++ u)%list, lvl, msg.
  now rewrite Hu, Ht, <- !app_assoc.
Qed.

Lemma get_stock_item_extends (self : MagentoClient) (sku : string) (w : world) :
  extends w (snd (get_stock_item self sku w)).
Proof.
  destruct (get_stock_item_trace self sku w) as (logs & Ht & _).
  eexists. exact Ht.
Qed.

Lemma get_stock_qty_extends (self : MagentoClient) (sku : string) (w : world) :
  extends w (snd (get_stock_qty self sku w)).
Proof. rewrite get_stock_qty_world. apply get_stock_item_extends. Qed.

Lemma update_stock_qty_extends (self : MagentoClient) (sku : string) (qty : number)
      (o : option bool) (w : world) :
  extends w (snd (update_stock_qty self sku qty o w)).
Proof.
  rewrite update_stock_qty_eq.
  pose proof (get_stock_item_extends self sku w) as He.
  destruct (get_stock_item self sku w) as [r w1]. cbn [snd] in He.
  destruct r as [v | e]; [|exact He].
  destruct v as [| b | z | f | s | l | d]; cbn [snd];
    try exact He; try (now apply extends_record).
  destruct (truthy (item_id_of d)); cbn [negb]; [|now apply extends_record].
  cbv zeta.
  destruct (transport (trace w1) _) as [resp | | e];
    [destruct (http_error_msg _ resp)| |];
    cbn [snd update_failed]; now repeat apply extends_record.
Qed.

Lemma sync_part_ends_with_log (cfg : settings) (part : Part) (client : MagentoClient)
      (kind : string) (w : world) :
  fst (_sync_part cfg part client kind w) = Ok tt ->
  ends_with_log w (snd (_sync_part cfg part client kind w)).
Proof.
  destruct (string_dec (name part) "") as [E | Hname].
  { intros _. unfold _sync_part. rewrite E. cbn [String.eqb truthy negb].
    apply ends_with_log_record, extends_refl. }
  rewrite (sync_part_eq cfg part client kind w Hname). cbv zeta.
  pose proof (get_stock_qty_extends client (name part) w) as He.
  destruct (get_stock_qty client (name part) w) as [r1 w1]. cbn [snd] in He.
  destruct r1 as [[m2_qty|] | e].
  - destruct (isclose _ _ _ _);
      [intros _; now apply ends_with_log_record|].
    destruct (LOG_ONLY cfg); [intros _; now apply ends_with_log_record|].
    pose proof (update_stock_qty_extends client (name part) (NFloat (Binary64.of_decimal (total_stock part))) None w1)
      as Hu.
    destruct (update_stock_qty client (name part) (NFloat (Binary64.of_decimal (total_stock part))) None w1)
      as [[[] | e] w2]; cbn [snd] in Hu.
    + intros _. apply ends_with_log_record. now apply (extends_trans w w1 w2).
    + intros _. apply ends_with_log_record. now apply (extends_trans w w1 w2).
    + destruct e; try discriminate.
      intros _. apply ends_with_log_record. now apply (extends_trans w w1 w2).
  - intros _. now apply ends_with_log_record.
  - destruct e; try discriminate.
    intros _. now apply ends_with_log_record.
Qed.

End Logging.

(** X18. No attempt ends in silence. With sync enabled, whenever
    [process_event] returns normally, the last thing it did was to write a
    log record; so does [_sync_part] whenever it returns normally. *)
Theorem process_event_leaves_log {host : Host} (cfg : settings) (kind : string)
        (kwargs : list (string * value)) (w : world) :
  (forall part client,
      fst (_sync_part cfg part client kind w) = Ok tt ->
      ends_with_log w (snd (_sync_part cfg part client kind w)))
  /\ (SYNC_ENABLED cfg = true ->
      fst (process_event cfg kind kwargs w) = Ok tt ->
      ends_with_log w (snd (process_event cfg kind kwargs w))).
Proof.
  split; [intros part client; apply sync_part_ends_with_log|].
  intros Hen. unfold process_event. rewrite Hen. cbn [negb]. unfold bind.
  destruct (string_dec (MAGENTO_URL cfg) "") as [Eu | Hu].
  { rewrite (magento_unconfigured cfg w (or_introl Eu)).
    intros _. apply ends_with_log_record, extends_refl. }
  destruct (string_dec (MAGENTO_TOKEN cfg) "") as [Et | Ht].
  { rewrite (magento_unconfigured cfg w (or_intror Et)).
    intros _. apply ends_with_log_record, extends_refl. }
  destruct (magento_configured cfg w Hu Ht) as (c & w' & Hm & Htr & _).
  rewrite Hm.
  assert (Hw' : extends w w') by (exists []; now rewrite Htr, app_nil_r).
  destruct (truthy (kwargs_get kwargs "id")); cbn [negb];
    [|intros _; now apply ends_with_log_record].
  destruct (kind =? "stock_stockitem.deleted")%string.
  - destruct (truthy (kwargs_get kwargs "part_id")); cbn [negb];
      [|intros _; now apply ends_with_log_record].
    unfold _sync_part_by_id.
    destruct part_models; cbn [negb]; [|intros _; now apply ends_with_log_record].
    unfold bind, emit.
    destruct (Part_get (kwargs_get kwargs "part_id")) as [part|].
    + intros Hok.
      apply (ends_with_log_after w
               (record (Queried "Part" (kwargs_get kwargs "part_id")) w'));
        [now apply extends_record | now apply sync_part_ends_with_log].
    + intros _. apply ends_with_log_record. now apply extends_record.
  - unfold _sync_stock_item.
    destruct stock_models; cbn [negb]; [|intros _; now apply ends_with_log_record].
    unfold bind, emit.
    destruct (StockItem_get (kwargs_get kwargs "id")) as [[part|]|].
    + intros Hok.
      apply (ends_with_log_after w
               (record (Queried "StockItem" (kwargs_get kwargs "id")) w'));
        [now apply extends_record | now apply sync_part_ends_with_log].
    + intros _. apply ends_with_log_record. now apply extends_record.
    + intros _. apply ends_with_log_record. now apply extends_record.
Qed.

(** The item of the notification is gone: one look-up, and a debug record. *)
Lemma process_event_leaves_log_witness :
  let h := served_by (one_record remote_40 200) in
  ends_with_log fresh
    (snd (@process_event h live "stock_stockitem.saved" [("id", VInt 7)] fresh)).
Proof.
  intros h.
  apply (proj2 (@process_event_leaves_log h live "stock_stockitem.saved"
                  [("id", VInt 7)] fresh)); reflexivity.
Defined.
